(** * JunctionSim: the Stripe webhook edge function

    A shallow embedding of [supabase_edge_function_stripe_webhook.ts] (the
    [Deno.serve] request handler) together with the part of
    [database_schema.sql] it writes to, and the properties of the ledger that
    the specification states about it.

    Conventions of the embedding.
    - A JavaScript value that may be [undefined] or [null] is an [option].
    - Integer quantities (minor-unit amounts, credit counts) are [Z]; the
      quotients [amount / 100] and [amount / 10] are exact rationals ([Q]),
      compared with [==].
    - The handler runs in a small state-and-exception monad over a [World]:
      the two tables, the list of requests sent to the store so far, and the
      number of times the clock has been read.
    - Everything the handler obtains from outside (signature verification,
      the payment provider's read API, store failures, the clock) is a field
      of an [Env]. *)

From Stdlib Require Import ZArith QArith Qround Lia.
From stdpp Require Import base option strings list gmap.

Local Open Scope Z_scope.
Local Open Scope string_scope.

(** ** JavaScript helpers *)

(** [x || d] on a number that may be missing: [undefined], [null] and [0]
    are falsy. *)
Definition num_or (x : option Z) (d : Z) : Z :=
  match x with
  | Some v => if (v =? 0)%Z then d else v
  | None => d
  end.

Definition qnum_or (x : option Q) (d : Q) : Q :=
  match x with
  | Some v => if Qeq_bool v 0 then d else v
  | None => d
  end.

(** Truthiness of a string that may be missing: [undefined], [null] and the
    empty string are falsy, so [truthy s = None] is [!s]. *)
Definition truthy (s : option string) : option string :=
  match s with
  | Some EmptyString => None
  | _ => s
  end.

(** [Math.floor]. *)
Definition Math_floor (q : Q) : Z := Qfloor q.

(** [String.prototype.includes]: [includes p s] is [s.includes(p)]. *)
Fixpoint includes (p s : string) : bool :=
  if String.prefix p s then true
  else match s with
       | EmptyString => false
       | String _ s' => includes p s'
       end.

(** ** The tables of [database_schema.sql] *)

Module Schema.

(** A row of [users], without the generated [id] and [created_at].  The
    [email] column is [UNIQUE NOT NULL] and is the key of the table below;
    every other column is nullable. *)
Record UserRow := mkUserRow {
  credits : option Z;
  subscription_tier : option string;
  subscription_id : option string;
  subscription_active : option bool;
  last_purchase : option string;
  last_payment : option string;
  total_spent : option Q;
  subscription_cancelled : option string
}.

(** The column defaults of [CREATE TABLE users]. *)
Definition default_user : UserRow :=
  {| credits := Some 5;
     subscription_tier := Some "free";
     subscription_id := None;
     subscription_active := Some false;
     last_purchase := None;
     last_payment := None;
     total_spent := Some 0%Q;
     subscription_cancelled := None |}.

(** A row of [transactions], without the generated [id]. *)
Record TransactionRow := mkTransactionRow {
  user_email : string;
  session_id : option string;
  tx_subscription_id : option string;
  amount : Q;
  credits_added : option Z;
  timestamp : string;
  type : string;
  status : string
}.

(** A JavaScript object over the columns of [users]: a property is either
    absent ([None]) or present with a column value.  It is the shape of
    the payloads of [upsert] and [update] and of the rows that [select]
    returns. *)
Record UserObj := mkUserObj {
  o_email : option string;
  o_credits : option (option Z);
  o_subscription_tier : option (option string);
  o_subscription_id : option (option string);
  o_subscription_active : option (option bool);
  o_last_purchase : option (option string);
  o_last_payment : option (option string);
  o_total_spent : option (option Q);
  o_subscription_cancelled : option (option string)
}.

(** Writing the properties present in [o] over the row [r]. *)
Definition apply_obj (o : UserObj) (r : UserRow) : UserRow :=
  {| credits := default (credits r) (o_credits o);
     subscription_tier := default (subscription_tier r) (o_subscription_tier o);
     subscription_id := default (subscription_id r) (o_subscription_id o);
     subscription_active := default (subscription_active r) (o_subscription_active o);
     last_purchase := default (last_purchase r) (o_last_purchase o);
     last_payment := default (last_payment r) (o_last_payment o);
     total_spent := default (total_spent r) (o_total_spent o);
     subscription_cancelled := default (subscription_cancelled r) (o_subscription_cancelled o) |}.

Definition listed (col : string) (cols : list string) : bool :=
  existsb (String.eqb col) cols.

Definition keep {A : Type} (col : string) (cols : list string) (v : A) : option A :=
  if listed col cols then Some v else None.

(** The object that [select(cols)] returns for the row [r] stored under
    [email]: only the listed columns are properties of it. *)
Definition project (cols : list string) (email : string) (r : UserRow) : UserObj :=
  {| o_email := keep "email" cols email;
     o_credits := keep "credits" cols (credits r);
     o_subscription_tier := keep "subscription_tier" cols (subscription_tier r);
     o_subscription_id := keep "subscription_id" cols (subscription_id r);
     o_subscription_active := keep "subscription_active" cols (subscription_active r);
     o_last_purchase := keep "last_purchase" cols (last_purchase r);
     o_last_payment := keep "last_payment" cols (last_payment r);
     o_total_spent := keep "total_spent" cols (total_spent r);
     o_subscription_cancelled := keep "subscription_cancelled" cols (subscription_cancelled r) |}.

End Schema.
Export Schema.

(** ** The payment provider's objects *)

Module Stripe.

(** [Stripe.Checkout.Session], the properties the handler reads. *)
Record CustomerDetails := { cd_email : option string }.
Record Session := {
  id : string;
  customer_details : option CustomerDetails;
  amount_total : option Z
}.

(** [Stripe.Invoice]. *)
Record Invoice := {
  customer_email : option string;
  amount_paid : option Z;
  subscription : option string
}.

(** [Stripe.Subscription]. *)
Record Price := { price_id : string; product : string }.
Record SubscriptionItem := { price : Price }.
Record Subscription := {
  customer : option string;
  items_data : list SubscriptionItem
}.

(** [Stripe.Product]. *)
Record Product := { name : string }.

(** [Stripe.Customer | Stripe.DeletedCustomer]; [deleted] may be absent
    from the object. *)
Record Customer := {
  deleted : option bool;
  email : option string
}.

(** [receivedEvent.data.object]. *)
Inductive DataObject :=
| ObjSession (s : Session)
| ObjInvoice (i : Invoice)
| ObjSubscription (s : Subscription)
| ObjOther.

(** [Stripe.Event]. *)
Record Event := { ev_type : string; ev_object : DataObject }.

(** The [as] casts of the handler do nothing at run time: a property that
    the object does not have reads as [undefined]. *)
Definition session_email (o : DataObject) : option string :=
  match o with
  | ObjSession s => customer_details s ≫= cd_email
  | _ => None
  end.

Definition session_amount_total (o : DataObject) : option Z :=
  match o with ObjSession s => amount_total s | _ => None end.

Definition session_id_of (o : DataObject) : option string :=
  match o with ObjSession s => Some (id s) | _ => None end.

Definition invoice_customer_email (o : DataObject) : option string :=
  match o with ObjInvoice i => customer_email i | _ => None end.

Definition invoice_amount_paid (o : DataObject) : option Z :=
  match o with ObjInvoice i => amount_paid i | _ => None end.

Definition invoice_subscription (o : DataObject) : option string :=
  match o with ObjInvoice i => subscription i | _ => None end.

Definition subscription_customer (o : DataObject) : option string :=
  match o with ObjSubscription s => customer s | _ => None end.

End Stripe.
Export Stripe.

(** ** Requests, responses and the environment *)

Record Request := { signature : option string; body : string }.

(** The bodies the handler answers with; the [Json_] ones stand for
    [JSON.stringify] of [{ error: msg }], [{ success: true }] and
    [{ ok: true }]. *)
Inductive Body :=
| Text (msg : string)
| Json_error (msg : string)
| Json_success
| Json_ok.

Record Response := { resp_body : Body; resp_status : nat }.

(** A request sent to the store. *)
Inductive StoreCall :=
| CallSelect (cols : list string) (email : string)
| CallUpsert (payload : UserObj)
| CallUpdate (payload : UserObj) (email : string)
| CallInsert (row : TransactionRow).

Record World := mkWorld {
  users : gmap string UserRow;
  transactions : list TransactionRow;
  calls : list StoreCall;
  ticks : nat
}.

(** What the handler gets from outside.
    - [constructEvent body signature]: [stripe.webhooks.constructEventAsync]
      with the configured secret; [inr (Some msg)] is a thrown [Error] with
      that message, [inr None] any other thrown value.
    - the three [retrieve] calls of the provider's read API; [None] is a
      thrown error.
    - [store_fault n]: the error code with which the store rejects the
      [n]-th request it receives, if it does.
    - [now n]: [new Date().toISOString()] at the [n]-th reading. *)
Record Env := {
  constructEvent : string -> option string -> Event + option string;
  subscriptions_retrieve : option string -> option Subscription;
  products_retrieve : option string -> option Product;
  customers_retrieve : option string -> option Customer;
  store_fault : nat -> option string;
  now : nat -> string
}.

(** PostgREST answers [PGRST116] only when [single()] does not find exactly
    one row; no other failure carries that code. *)
Definition faithful_store (env : Env) : Prop :=
  forall n, store_fault env n <> Some "PGRST116".

(** ** The monad of the handler *)

Inductive Outcome (A : Type) :=
| Ret (a : A)
| Throw.
Arguments Ret {A} a.
Arguments Throw {A}.

Definition M (A : Type) : Type := World -> Outcome A * World.

Definition ret {A} (a : A) : M A := fun w => (Ret a, w).
Definition throw {A} : M A := fun w => (Throw, w).
Definition bind {A B} (m : M A) (k : A -> M B) : M B :=
  fun w => match m w with
           | (Ret a, w') => k a w'
           | (Throw, w') => (Throw, w')
           end.
Definition try_catch {A} (m handler : M A) : M A :=
  fun w => match m w with
           | (Ret a, w') => (Ret a, w')
           | (Throw, w') => handler w'
           end.

Notation "x <- m ;; k" := (bind m (fun x => k))
  (at level 100, m at next level, right associativity).

(** [new Date().toISOString()]. *)
Definition new_Date (env : Env) : M string :=
  fun w => (Ret (now env (ticks w)),
            mkWorld (users w) (transactions w) (calls w) (S (ticks w))).

(** ** The store client *)

Module Supabase.

Record PostgrestError := { code : string }.

(** What awaiting a query yields: [{ data, error }]. *)
Record Result := { data : option UserObj; error : option PostgrestError }.

Definition sent (c : StoreCall) (w : World) : World :=
  mkWorld (users w) (transactions w) (calls w ++ [c]) (ticks w).

Definition set_users (u : gmap string UserRow) (w : World) : World :=
  mkWorld u (transactions w) (calls w) (ticks w).

Definition set_transactions (t : list TransactionRow) (w : World) : World :=
  mkWorld (users w) t (calls w) (ticks w).

(** Modelled from the spec: [supabaseClient] is used by the handler but
    declared nowhere in the sources; this is [find_by_identifier] of the
    Account Store Adapter, as
    [from("users").select(cols).eq("email", email).single()]: the row
    under [email] restricted to [cols], [PGRST116] when there is none, the
    store's own error when the request fails.  A query never throws. *)
Definition select_single (env : Env) (cols : list string) (email : string) : M Result :=
  fun w =>
    let w' := sent (CallSelect cols email) w in
    match store_fault env (length (calls w)) with
    | Some c => (Ret {| data := None; error := Some {| code := c |} |}, w')
    | None =>
        match users w !! email with
        | Some r => (Ret {| data := Some (project cols email r); error := None |}, w')
        | None => (Ret {| data := None; error := Some {| code := "PGRST116" |} |}, w')
        end
    end.

(** Modelled from the spec: [upsert] of the Account Store Adapter, as
    [from("users").upsert(payload, { onConflict: "email" })]: the columns
    of the payload are written over the row with the payload's email, or
    over the column defaults when there is no such row.  A failed request
    changes nothing; a payload without email violates [NOT NULL]. *)
Definition upsert (env : Env) (payload : UserObj) : M Result :=
  fun w =>
    let w' := sent (CallUpsert payload) w in
    match store_fault env (length (calls w)) with
    | Some c => (Ret {| data := None; error := Some {| code := c |} |}, w')
    | None =>
        match o_email payload with
        | None => (Ret {| data := None; error := Some {| code := "23502" |} |}, w')
        | Some e =>
            let r := default default_user (users w !! e) in
            (Ret {| data := None; error := None |},
             set_users (<[e := apply_obj payload r]> (users w)) w')
        end
    end.

(** Modelled from the spec: [update_fields] of the Account Store Adapter,
    as [from("users").update(payload).eq("email", email)]: the columns of
    the payload are written over the row under [email]; when there is no
    such row nothing is written and no error is reported. *)
Definition update (env : Env) (payload : UserObj) (email : string) : M Result :=
  fun w =>
    let w' := sent (CallUpdate payload email) w in
    match store_fault env (length (calls w)) with
    | Some c => (Ret {| data := None; error := Some {| code := c |} |}, w')
    | None =>
        (Ret {| data := None; error := None |},
         set_users (alter (apply_obj payload) email (users w)) w')
    end.

(** Modelled from the spec: [append_transaction] of the Account Store
    Adapter, as [from("transactions").insert(row)]: the row is appended to
    the log unless the request fails. *)
Definition insert (env : Env) (row : TransactionRow) : M Result :=
  fun w =>
    let w' := sent (CallInsert row) w in
    match store_fault env (length (calls w)) with
    | Some c => (Ret {| data := None; error := Some {| code := c |} |}, w')
    | None =>
        (Ret {| data := None; error := None |},
         set_transactions (transactions w ++ [row]) w')
    end.

End Supabase.
Export Supabase.

(** ** The request handler *)

Definition response (b : Body) (s : nat) : Response :=
  {| resp_body := b; resp_status := s |}.

(** [o?.p] for a column [p] of a row object that may be [null]. *)
Definition opt_chain {A} (o : option UserObj) (p : UserObj -> option (option A)) : option A :=
  match o with
  | Some obj => match p obj with Some v => v | None => None end
  | None => None
  end.

(** An awaited call of the provider's API: the value, or the thrown error. *)
Definition await {A} (r : option A) : M A :=
  match r with
  | Some a => ret a
  | None => throw
  end.

(** [fetchError && fetchError.code !== "PGRST116"]. *)
Definition is_real_error (e : option PostgrestError) : bool :=
  match e with
  | Some err => negb (String.eqb (code err) "PGRST116")
  | None => false
  end.

(** [if (updateError)]. *)
Definition is_error (e : option PostgrestError) : bool :=
  match e with Some _ => true | None => false end.

Section Handler.

Variable env : Env.

(** The branch for [checkout.session.completed]. *)
Definition checkout_session_completed (receivedEvent : Event) : M Response :=
  let session := ev_object receivedEvent in
  let userEmail := session_email session in
  let amount := num_or (session_amount_total session) 0 in
  let sessionId := session_id_of session in
  match truthy userEmail with
  | None =>
      ret (response (Json_error "No customer email") 400)
  | Some userEmail =>
      try_catch
        (res <- select_single env ["credits"] userEmail ;;
         let userData := data res in
         let fetchError := error res in
         if is_real_error fetchError then throw
         else
           let currentCredits := num_or (opt_chain userData o_credits) 0 in
           let creditsToAdd := Math_floor (inject_Z amount / 10) in
           let newCredits := currentCredits + creditsToAdd in
           last <- new_Date env ;;
           res <- upsert env
                    {| o_email := Some userEmail;
                       o_credits := Some (Some newCredits);
                       o_last_purchase := Some (Some last);
                       o_total_spent :=
                         Some (Some (qnum_or (opt_chain userData o_total_spent) 0
                                     + inject_Z amount / 100)%Q);
                       o_subscription_tier := Some (Some "free");
                       o_subscription_id := None;
                       o_subscription_active := None;
                       o_last_payment := None;
                       o_subscription_cancelled := None |} ;;
           let updateError := error res in
           if is_error updateError then throw
           else
             stamp <- new_Date env ;;
             _ <- insert env
                    {| user_email := userEmail;
                       session_id := sessionId;
                       tx_subscription_id := None;
                       amount := (inject_Z amount / 100)%Q;
                       credits_added := Some creditsToAdd;
                       timestamp := stamp;
                       type := "credit_purchase";
                       status := "completed" |} ;;
             ret (response Json_success 200))
        (ret (response (Text "Failed to update user credits") 500))
  end.

(** The branch for [invoice.payment_succeeded].  The source also computes a
    [priceId] from the first item; it is never used, and on an item that
    has its [price] reading it does not throw, so it is left out. *)
Definition invoice_payment_succeeded (receivedEvent : Event) : M Response :=
  let invoice := ev_object receivedEvent in
  let customerEmail := invoice_customer_email invoice in
  let amountPaid := num_or (invoice_amount_paid invoice) 0 in
  let subscriptionId := invoice_subscription invoice in
  match truthy customerEmail with
  | None =>
      ret (response (Json_error "No customer email") 400)
  | Some customerEmail =>
      try_catch
        (subscription <- await (subscriptions_retrieve env subscriptionId) ;;
         let productId :=
           (fun item => product (price item)) <$> head (items_data subscription) in
         product <- await (products_retrieve env productId) ;;
         let tier :=
           if includes "Premium" (name product) then "premium" else "enterprise" in
         paid <- new_Date env ;;
         res <- update env
                  {| o_email := None;
                     o_credits := None;
                     o_subscription_tier := Some (Some tier);
                     o_subscription_id := Some subscriptionId;
                     o_subscription_active := Some (Some true);
                     o_last_purchase := None;
                     o_last_payment := Some (Some paid);
                     o_total_spent := None;
                     o_subscription_cancelled := None |}
                  customerEmail ;;
         let updateError := error res in
         if is_error updateError then throw
         else
           stamp <- new_Date env ;;
           _ <- insert env
                  {| user_email := customerEmail;
                     session_id := None;
                     tx_subscription_id := subscriptionId;
                     amount := (inject_Z amountPaid / 100)%Q;
                     credits_added := None;
                     timestamp := stamp;
                     type := "subscription_payment";
                     status := "completed" |} ;;
           ret (response Json_success 200))
        (ret (response (Text "Failed to update subscription") 500))
  end.

(** The branch for [customer.subscription.deleted]. *)
Definition customer_subscription_deleted (receivedEvent : Event) : M Response :=
  let subscription := ev_object receivedEvent in
  let customerId := subscription_customer subscription in
  try_catch
    (customer <- await (customers_retrieve env customerId) ;;
     let customerEmail :=
       match deleted customer with
       | Some false => email customer
       | _ => None
       end in
     match truthy customerEmail with
     | None =>
         ret (response (Json_error "Could not find customer email") 400)
     | Some customerEmail =>
         cancelled <- new_Date env ;;
         res <- update env
                  {| o_email := None;
                     o_credits := None;
                     o_subscription_tier := None;
                     o_subscription_id := None;
                     o_subscription_active := Some (Some false);
                     o_last_purchase := None;
                     o_last_payment := None;
                     o_total_spent := None;
                     o_subscription_cancelled := Some (Some cancelled) |}
                  customerEmail ;;
         let updateError := error res in
         if is_error updateError then throw
         else ret (response Json_success 200)
     end)
    (ret (response (Text "Failed to cancel subscription") 500)).

(** The function given to [Deno.serve]. *)
Definition serve (request : Request) : M Response :=
  match constructEvent env (body request) (signature request) with
  | inr (Some message) => ret (response (Text message) 400)
  | inr None => ret (response (Text "Unknown error occurred") 400)
  | inl receivedEvent =>
      if String.eqb (ev_type receivedEvent) "checkout.session.completed"
      then checkout_session_completed receivedEvent
      else if String.eqb (ev_type receivedEvent) "invoice.payment_succeeded"
      then invoice_payment_succeeded receivedEvent
      else if String.eqb (ev_type receivedEvent) "customer.subscription.deleted"
      then customer_subscription_deleted receivedEvent
      else ret (response Json_ok 200)
  end.

End Handler.

(** ** What a run writes

    The rows and audit records that the branches leave behind, as functions
    of the event; the lemmas below show that the handler writes exactly
    these. *)

(** The paid amount of a checkout session, [session.amount_total || 0]. *)
Definition paid (ev : Event) : Z :=
  num_or (session_amount_total (ev_object ev)) 0.

(** The row the upsert of a purchase leaves under the customer's email, from
    the row [prior] found there (if any) at the clock reading [t]. *)
Definition purchased_row (env : Env) (ev : Event) (prior : option UserRow) (t : nat) : UserRow :=
  let r := default default_user prior in
  {| credits := Some (num_or (prior ≫= credits) 0 + paid ev / 10);
     subscription_tier := Some "free";
     subscription_id := subscription_id r;
     subscription_active := subscription_active r;
     last_purchase := Some (now env t);
     last_payment := last_payment r;
     total_spent := Some (0 + inject_Z (paid ev) / 100)%Q;
     subscription_cancelled := subscription_cancelled r |}.

(** The audit record of a purchase by [e]. *)
Definition purchase_record (env : Env) (ev : Event) (e : string) (t : nat) : TransactionRow :=
  {| user_email := e;
     session_id := session_id_of (ev_object ev);
     tx_subscription_id := None;
     amount := (inject_Z (paid ev) / 100)%Q;
     credits_added := Some (paid ev / 10);
     timestamp := now env t;
     type := "credit_purchase";
     status := "completed" |}.

(** The tier of a product, by its display name. *)
Definition classify (prod : Product) : string :=
  if includes "Premium" (name prod) then "premium" else "enterprise".

(** The row the update of a subscription payment leaves in place of [r] at
    the clock reading [t]. *)
Definition subscribed_row (env : Env) (ev : Event) (prod : Product) (t : nat) (r : UserRow) : UserRow :=
  {| credits := credits r;
     subscription_tier := Some (classify prod);
     subscription_id := invoice_subscription (ev_object ev);
     subscription_active := Some true;
     last_purchase := last_purchase r;
     last_payment := Some (now env t);
     total_spent := total_spent r;
     subscription_cancelled := subscription_cancelled r |}.

(** The audit record of a subscription payment by [e]. *)
Definition payment_record (env : Env) (ev : Event) (e : string) (t : nat) : TransactionRow :=
  {| user_email := e;
     session_id := None;
     tx_subscription_id := invoice_subscription (ev_object ev);
     amount := (inject_Z (num_or (invoice_amount_paid (ev_object ev)) 0) / 100)%Q;
     credits_added := None;
     timestamp := now env t;
     type := "subscription_payment";
     status := "completed" |}.

(** The credit balance of the account [e], as the handler reads it: a
    missing account and a [NULL] column count as 0. *)
Definition balance (w : World) (e : string) : Z :=
  num_or (users w !! e ≫= credits) 0.

(** ** Concrete runs *)

Module Fixture.

Definition ada : string := "ada@example.com".

(** A purchase of 1000 minor units by [ada]. *)
Definition purchase_event : Event :=
  {| ev_type := "checkout.session.completed";
     ev_object :=
       ObjSession {| id := "cs_test_1";
                     customer_details := Some {| cd_email := Some ada |};
                     amount_total := Some 1000 |} |}.

(** A checkout session without amount. *)
Definition free_event : Event :=
  {| ev_type := "checkout.session.completed";
     ev_object :=
       ObjSession {| id := "cs_test_2";
                     customer_details := Some {| cd_email := Some ada |};
                     amount_total := None |} |}.

(** A purchase that carries no customer email. *)
Definition anonymous_event : Event :=
  {| ev_type := "checkout.session.completed";
     ev_object :=
       ObjSession {| id := "cs_test_3";
                     customer_details := None;
                     amount_total := Some 1000 |} |}.

(** A paid invoice of [ada]'s subscription. *)
Definition invoice_event : Event :=
  {| ev_type := "invoice.payment_succeeded";
     ev_object :=
       ObjInvoice {| customer_email := Some ada;
                     amount_paid := Some 2500;
                     subscription := Some "sub_1" |} |}.

(** An event kind the handler has no branch for. *)
Definition refund_event : Event :=
  {| ev_type := "charge.refunded"; ev_object := ObjOther |}.

Definition sub_1 : Subscription :=
  {| customer := Some "cus_1";
     items_data := [ {| price := {| price_id := "price_1"; product := "prod_1" |} |} ] |}.

(** The provider signs five bodies; a request without signature header
    is rejected. *)
Definition verify (body : string) (signature : option string) : Event + option string :=
  match signature with
  | None => inr (Some "No signature header value was provided")
  | Some _ =>
      if String.eqb body "purchase" then inl purchase_event
      else if String.eqb body "free" then inl free_event
      else if String.eqb body "anonymous" then inl anonymous_event
      else if String.eqb body "invoice" then inl invoice_event
      else inl refund_event
  end.

(** An environment whose store fails as [faults] says. *)
Definition env (faults : nat -> option string) : Env :=
  {| constructEvent := verify;
     subscriptions_retrieve :=
       fun i => match i with Some "sub_1" => Some sub_1 | _ => None end;
     products_retrieve :=
       fun i => match i with
                | Some "prod_1" => Some {| name := "JunctionSim Premium" |}
                | _ => None
                end;
     customers_retrieve := fun _ => None;
     store_fault := faults;
     now := fun n => if Nat.even n then "2025-01-01T00:00:00.000Z"
                     else "2025-01-01T00:00:00.001Z" |}.

Definition no_fault : nat -> option string := fun _ => None.

(** The store rejects its third request only. *)
Definition third_fails : nat -> option string :=
  fun n => match n with 2%nat => Some "57014" | _ => None end.

Definition signed (body : string) : Request :=
  {| signature := Some "t=1,v1=00"; body := body |}.

(** [ada] is a premium subscriber with 5 credits who has spent 20. *)
Definition ada_row : UserRow :=
  {| credits := Some 5;
     subscription_tier := Some "premium";
     subscription_id := Some "sub_1";
     subscription_active := Some true;
     last_purchase := None;
     last_payment := Some "2024-12-01T00:00:00.000Z";
     total_spent := Some 20%Q;
     subscription_cancelled := None |}.

Definition with_ada : World := mkWorld {[ ada := ada_row ]} [] [] 0.
Definition empty_world : World := mkWorld ∅ [] [] 0.

End Fixture.

(** ** More concrete runs: cancellations, failing lookups, a second purchase *)

Module Scenario.

(** The cancellation of the subscription of customer [cus_1]. *)
Definition cancel_event : Event :=
  {| ev_type := "customer.subscription.deleted";
     ev_object := ObjSubscription {| customer := Some "cus_1"; items_data := [] |} |}.

(** The cancellation of the subscription of customer [cus_2], whose object
    comes back from the provider without a [deleted] property. *)
Definition cancel_plain_event : Event :=
  {| ev_type := "customer.subscription.deleted";
     ev_object := ObjSubscription {| customer := Some "cus_2"; items_data := [] |} |}.

(** The cancellation of a subscription whose customer the provider does not
    know. *)
Definition cancel_unknown_event : Event :=
  {| ev_type := "customer.subscription.deleted";
     ev_object := ObjSubscription {| customer := Some "cus_9"; items_data := [] |} |}.

(** A paid invoice for a subscription the provider does not know. *)
Definition stale_invoice_event : Event :=
  {| ev_type := "invoice.payment_succeeded";
     ev_object :=
       ObjInvoice {| customer_email := Some Fixture.ada;
                     amount_paid := Some 2500;
                     subscription := Some "sub_9" |} |}.

(** A paid invoice without customer email. *)
Definition anonymous_invoice_event : Event :=
  {| ev_type := "invoice.payment_succeeded";
     ev_object :=
       ObjInvoice {| customer_email := None;
                     amount_paid := Some 2500;
                     subscription := Some "sub_1" |} |}.

(** A purchase of 505 minor units by [ada]. *)
Definition small_purchase_event : Event :=
  {| ev_type := "checkout.session.completed";
     ev_object :=
       ObjSession {| id := "cs_test_4";
                     customer_details := Some {| cd_email := Some Fixture.ada |};
                     amount_total := Some 505 |} |}.

Definition verify (body : string) (signature : option string) : Event + option string :=
  match signature with
  | None => inr (Some "No signature header value was provided")
  | Some _ =>
      if String.eqb body "cancel" then inl cancel_event
      else if String.eqb body "cancel_plain" then inl cancel_plain_event
      else if String.eqb body "cancel_unknown" then inl cancel_unknown_event
      else if String.eqb body "stale_invoice" then inl stale_invoice_event
      else if String.eqb body "anonymous_invoice" then inl anonymous_invoice_event
      else if String.eqb body "small_purchase" then inl small_purchase_event
      else Fixture.verify body signature
  end.

Definition customers (i : option string) : option Customer :=
  match i with
  | Some "cus_1" => Some {| deleted := Some false; email := Some Fixture.ada |}
  | Some "cus_2" => Some {| deleted := None; email := Some Fixture.ada |}
  | _ => None
  end.

(** The environment of [Fixture], with these events and customers. *)
Definition env (faults : nat -> option string) : Env :=
  {| constructEvent := verify;
     subscriptions_retrieve := subscriptions_retrieve (Fixture.env faults);
     products_retrieve := products_retrieve (Fixture.env faults);
     customers_retrieve := customers;
     store_fault := faults;
     now := now (Fixture.env faults) |}.

(** The store rejects its first request only. *)
Definition first_fails : nat -> option string :=
  fun n => match n with 0%nat => Some "57014" | _ => None end.

End Scenario.

(** ** Reasoning about runs *)

Ltac unfold_monad :=
  unfold try_catch, bind, ret, throw, await, new_Date,
    select_single, upsert, update, insert in *.

Ltac unfold_handler :=
  unfold serve, checkout_session_completed, invoice_payment_succeeded,
    customer_subscription_deleted in *;
  unfold_monad.

(** [includes] finds exactly the substrings. *)
Lemma prefix_app (p s : string) :
  String.prefix p s = true <-> exists post, s = p +:+ post.
Proof.
  revert s. induction p as [|c p IH]; intros s; simpl.
  - destruct s; split; eauto.
  - destruct s as [|d s]; simpl.
    + split; [discriminate | intros [post H]; discriminate].
    + destruct (Ascii.ascii_dec c d) as [->|Hne].
      * rewrite IH. split; intros [post H]; exists post.
        -- by rewrite H.
        -- by injection H.
      * split; [discriminate | intros [post H]; injection H; congruence].
Qed.

Lemma includes_nil (p : string) : includes p "" = String.prefix p "".
Proof. by destruct p. Qed.

Lemma includes_cons (p : string) (c : Ascii.ascii) (s : string) :
  includes p (String c s)
  = if String.prefix p (String c s) then true else includes p s.
Proof. reflexivity. Qed.

Lemma includes_spec (p s : string) :
  includes p s = true <-> exists pre post, s = pre +:+ p +:+ post.
Proof.
  induction s as [|c s IH].
  - rewrite includes_nil, prefix_app. split.
    + intros [post H]. by exists "", post.
    + intros ([|? pre] & post & H); [eauto | discriminate].
  - rewrite includes_cons.
    destruct (String.prefix p (String c s)) eqn:Hp.
    + split; [intros _ | done].
      apply prefix_app in Hp as [post Hp]. by exists "", post.
    + rewrite IH. split.
      * intros (pre & post & ->). by exists (String c pre), post.
      * intros ([|d pre] & post & H).
        -- assert (String.prefix p (String c s) = true) as Hq by (apply prefix_app; eauto).
           congruence.
        -- injection H as -> ->. eauto.
Qed.

(** [Math.floor(amount / 10)] is integer division. *)
Lemma floor_tenth (a : Z) : Math_floor (inject_Z a / 10) = a / 10.
Proof.
  unfold Math_floor, Qdiv, Qmult, Qinv, inject_Z, Qfloor; simpl.
  by rewrite Z.mul_1_r.
Qed.

Lemma num_or_zero (x : option Z) : num_or x 0 = default 0 x.
Proof. destruct x as [v|]; simpl; [|done]. destruct (Z.eqb_spec v 0); congruence. Qed.

Lemma truthy_Some (s e : string) : truthy (Some s) = Some e <-> s = e /\ e <> "".
Proof. destruct s; simpl; split; [done | by intros [<- ?] | by intros [= <-] | by intros [<- ?]]. Qed.

Lemma truthy_nonempty (e : string) : e <> "" -> truthy (Some e) = Some e.
Proof. intros. by apply truthy_Some. Qed.

Lemma truthy_inv (s : option string) (e : string) :
  truthy s = Some e -> s = Some e /\ e <> "".
Proof. destruct s as [s|]; [|done]. intros [-> ?]%truthy_Some. done. Qed.

Lemma eqb_false_of_ne (s t : string) : s <> t -> String.eqb s t = false.
Proof. apply String.eqb_neq. Qed.

(** ** Runs of the credit-purchase branch *)

Section Purchase.

Variables (env : Env) (request : Request) (ev : Event) (e : string).
Hypothesis Hev : constructEvent env (body request) (signature request) = inl ev.
Hypothesis Hty : ev_type ev = "checkout.session.completed".
Hypothesis Hemail : session_email (ev_object ev) = Some e.
Hypothesis Hne : e <> "".

Lemma serve_purchase (w : World) :
  serve env request w = checkout_session_completed env ev w.
Proof using Hev Hty. unfold serve. by rewrite Hev, Hty. Qed.

(** The store accepts the lookup and the upsert: the purchase is applied
    and answered with 200, whatever happens to the insert. *)
Lemma purchase_applied (w : World) :
  store_fault env (length (calls w)) = None ->
  store_fault env (S (length (calls w))) = None ->
  exists w',
    serve env request w = (Ret (response Json_success 200), w')
    /\ users w' = <[e := purchased_row env ev (users w !! e) (ticks w)]> (users w)
    /\ transactions w' =
         match store_fault env (S (S (length (calls w)))) with
         | Some _ => transactions w
         | None => (transactions w ++ [purchase_record env ev e (S (ticks w))])%list
         end
    /\ length (calls w') = S (S (S (length (calls w)))).
Proof using Hev Hty Hemail Hne.
  intros Hsel Hups. rewrite serve_purchase.
  unfold checkout_session_completed. rewrite Hemail, truthy_nonempty by done.
  unfold_monad. rewrite Hsel. fold (paid ev). rewrite floor_tenth.
  destruct (users w !! e) as [r|] eqn:Hrow; simpl;
    rewrite !length_app; simpl; rewrite Nat.add_1_r, Hups; simpl;
    rewrite !length_app; simpl; rewrite !Nat.add_1_r;
    destruct (store_fault env (S (S (length (calls w))))); simpl;
    (eexists; split; [reflexivity|]); simpl; rewrite ?Hrow;
    (split_and!; [reflexivity | reflexivity | rewrite !length_app; simpl; lia]).
Qed.

(** A 200 answer to a purchase means that the store accepted the lookup
    and the upsert. *)
Lemma purchase_200_inv (w w' : World) (r : Response) :
  faithful_store env ->
  serve env request w = (Ret r, w') ->
  resp_status r = 200%nat ->
  store_fault env (length (calls w)) = None
  /\ store_fault env (S (length (calls w))) = None.
Proof using Hev Hty Hemail Hne.
  intros Hfaith. rewrite serve_purchase.
  unfold checkout_session_completed. rewrite Hemail, truthy_nonempty by done.
  unfold_monad.
  destruct (store_fault env (length (calls w))) as [c|] eqn:Hsel; simpl.
  { assert (c <> "PGRST116") as Hc by (intros ->; by apply (Hfaith (length (calls w)))).
    rewrite eqb_false_of_ne by done. simpl. by intros [= <- <-]. }
  destruct (users w !! e) as [row|]; simpl;
    rewrite !length_app; simpl; rewrite Nat.add_1_r;
    (destruct (store_fault env (S (length (calls w)))) as [c|] eqn:Hups; simpl;
     [by intros [= <- <-] | done]).
Qed.

(** Whatever the store does, a purchase either leaves the accounts as they
    were or writes the purchased row under [e]. *)
Lemma purchase_users (w w' : World) (out : Outcome Response) :
  faithful_store env ->
  serve env request w = (out, w') ->
  users w' = users w
  \/ users w' = <[e := purchased_row env ev (users w !! e) (ticks w)]> (users w).
Proof using Hev Hty Hemail Hne.
  intros Hfaith Hrun.
  destruct (store_fault env (length (calls w))) as [c|] eqn:Hsel.
  - left. revert Hrun. rewrite serve_purchase.
    unfold checkout_session_completed. rewrite Hemail, truthy_nonempty by done.
    unfold_monad. rewrite Hsel. simpl.
    assert (c <> "PGRST116") as Hc by (intros ->; by apply (Hfaith (length (calls w)))).
    rewrite eqb_false_of_ne by done. simpl. by intros [= <- <-].
  - destruct (store_fault env (S (length (calls w)))) as [c|] eqn:Hups.
    + left. revert Hrun. rewrite serve_purchase.
      unfold checkout_session_completed. rewrite Hemail, truthy_nonempty by done.
      unfold_monad. rewrite Hsel.
      destruct (users w !! e) as [row|]; simpl;
        rewrite !length_app; simpl; rewrite Nat.add_1_r, Hups; simpl;
        by intros [= <- <-].
    + right. destruct (purchase_applied w Hsel Hups) as (w2 & Hrun2 & Hu & _).
      rewrite Hrun in Hrun2. by injection Hrun2 as -> ->.
Qed.

End Purchase.

(** ** Runs of the other two branches *)

Lemma alter_credits_frame (payload : UserObj) (k e : string) (m : gmap string UserRow) :
  o_credits payload = None ->
  credits <$> alter (apply_obj payload) k m !! e = credits <$> m !! e.
Proof.
  intros Hc. rewrite lookup_alter. case_decide as Hk; [subst k|done].
  destruct (m !! e); simpl; [|done]. by rewrite Hc.
Qed.

Lemma invoice_credits_frame (env : Env) (ev : Event) (w w' : World) (out : Outcome Response) :
  invoice_payment_succeeded env ev w = (out, w') ->
  forall e, credits <$> users w' !! e = credits <$> users w !! e.
Proof.
  unfold invoice_payment_succeeded. unfold_monad.
  destruct (truthy _) as [k|]; [|by intros [= <- <-]].
  destruct (subscriptions_retrieve _ _) as [sub|]; simpl; [|by intros [= <- <-]].
  destruct (products_retrieve _ _) as [prod|]; simpl; [|by intros [= <- <-]].
  destruct (store_fault env (length (calls w))); simpl;
    [by intros [= <- <-]|].
  destruct (store_fault env _); simpl; intros [= <- <-] e; simpl;
    by apply alter_credits_frame.
Qed.

Lemma cancellation_credits_frame (env : Env) (ev : Event) (w w' : World) (out : Outcome Response) :
  customer_subscription_deleted env ev w = (out, w') ->
  forall e, credits <$> users w' !! e = credits <$> users w !! e.
Proof.
  unfold customer_subscription_deleted. unfold_monad.
  destruct (customers_retrieve _ _) as [cust|]; simpl; [|by intros [= <- <-]].
  destruct (truthy _) as [k|]; simpl; [|by intros [= <- <-]].
  destruct (store_fault env (length (calls w))); simpl;
    intros [= <- <-] e; simpl; [done|].
  by apply alter_credits_frame.
Qed.

Section SubscriptionPayment.

Variables (env : Env) (request : Request) (ev : Event) (e : string).
Hypothesis Hev : constructEvent env (body request) (signature request) = inl ev.
Hypothesis Hty : ev_type ev = "invoice.payment_succeeded".
Hypothesis Hemail : invoice_customer_email (ev_object ev) = Some e.
Hypothesis Hne : e <> "".

Lemma serve_payment (w : World) :
  serve env request w = invoice_payment_succeeded env ev w.
Proof using Hev Hty. unfold serve. by rewrite Hev, Hty. Qed.

(** The provider resolves the subscription and its product and the store
    accepts the update: the payment is applied and answered with 200,
    whatever happens to the insert. *)
Lemma payment_applied (w : World) (sub : Subscription) (prod : Product) :
  subscriptions_retrieve env (invoice_subscription (ev_object ev)) = Some sub ->
  products_retrieve env
    ((fun item => product (price item)) <$> head (items_data sub)) = Some prod ->
  store_fault env (length (calls w)) = None ->
  exists w',
    serve env request w = (Ret (response Json_success 200), w')
    /\ users w' = alter (subscribed_row env ev prod (ticks w)) e (users w)
    /\ transactions w' =
         match store_fault env (S (length (calls w))) with
         | Some _ => transactions w
         | None => (transactions w ++ [payment_record env ev e (S (ticks w))])%list
         end
    /\ length (calls w') = S (S (length (calls w))).
Proof using Hev Hty Hemail Hne.
  intros Hsub Hprod Hupd. rewrite serve_payment.
  unfold invoice_payment_succeeded. rewrite Hemail, truthy_nonempty by done.
  unfold_monad. rewrite Hsub. simpl. rewrite Hprod. simpl. rewrite Hupd. simpl.
  rewrite !length_app; simpl; rewrite Nat.add_1_r.
  destruct (store_fault env (S (length (calls w)))); simpl;
    (eexists; split; [reflexivity|]); simpl;
    (split_and!; [reflexivity | reflexivity | rewrite !length_app; simpl; lia]).
Qed.

End SubscriptionPayment.

(** ** The dispatcher *)

(** C8. An authenticated event whose kind is none of
    [checkout.session.completed], [invoice.payment_succeeded] and
    [customer.subscription.deleted] is answered with 200 and the world is
    left as it was: no request is sent to the store, no row is written. *)
Theorem unhandled_kind_acknowledged
    (env : Env) (request : Request) (ev : Event) (w : World) :
  constructEvent env (body request) (signature request) = inl ev ->
  ev_type ev <> "checkout.session.completed" ->
  ev_type ev <> "invoice.payment_succeeded" ->
  ev_type ev <> "customer.subscription.deleted" ->
  serve env request w = (Ret (response Json_ok 200), w).
Proof.
  intros Hev H1 H2 H3. unfold serve.
  rewrite Hev, !eqb_false_of_ne by done. done.
Qed.

Lemma unhandled_kind_acknowledged_witness :
  serve (Fixture.env Fixture.no_fault) (Fixture.signed "refund") Fixture.with_ada
  = (Ret (response Json_ok 200), Fixture.with_ada).
Proof.
  apply (unhandled_kind_acknowledged (Fixture.env Fixture.no_fault)
           (Fixture.signed "refund") Fixture.refund_event Fixture.with_ada).
  - reflexivity.
  - discriminate.
  - discriminate.
  - discriminate.
Defined.

(** C7. Whenever the handler answers 400 (the signature does not verify,
    a purchase or a subscription payment carries no customer email, the
    customer of a cancellation has no email), the world after the request is
    the world before it: no upsert, update or insert was sent to the store,
    and in fact no request at all. *)
Theorem client_error_no_store_write
    (env : Env) (request : Request) (w w' : World) (r : Response) :
  serve env request w = (Ret r, w') ->
  resp_status r = 400%nat ->
  w' = w.
Proof.
  unfold serve.
  destruct (constructEvent env (body request) (signature request)) as [ev|[msg|]];
    [|by intros [= <- <-] | by intros [= <- <-]].
  destruct (String.eqb (ev_type ev) "checkout.session.completed").
  { unfold checkout_session_completed.
    destruct (truthy _) as [e|]; [|by intros [= <- <-]].
    unfold_monad.
    destruct (store_fault env (length (calls w))) as [c|]; simpl.
    - destruct (negb _); simpl; [by intros [= <- <-]|].
      destruct (store_fault env _); simpl; [by intros [= <- <-]|].
      destruct (store_fault env _); simpl; by intros [= <- <-].
    - destruct (users w !! e); simpl;
        (destruct (store_fault env _); simpl; [by intros [= <- <-]|]);
        destruct (store_fault env _); simpl; by intros [= <- <-]. }
  destruct (String.eqb (ev_type ev) "invoice.payment_succeeded").
  { unfold invoice_payment_succeeded.
    destruct (truthy _) as [e|]; [|by intros [= <- <-]].
    unfold_monad.
    destruct (subscriptions_retrieve _ _); simpl; [|by intros [= <- <-]].
    destruct (products_retrieve _ _); simpl; [|by intros [= <- <-]].
    destruct (store_fault env _); simpl; [by intros [= <- <-]|].
    destruct (store_fault env _); simpl; by intros [= <- <-]. }
  destruct (String.eqb (ev_type ev) "customer.subscription.deleted").
  { unfold customer_subscription_deleted. unfold_monad.
    destruct (customers_retrieve _ _); simpl; [|by intros [= <- <-]].
    destruct (truthy _) as [e|]; simpl; [|by intros [= <- <-]].
    destruct (store_fault env _); simpl; by intros [= <- <-]. }
  by intros [= <- <-].
Qed.

Lemma client_error_no_store_write_witness :
  snd (serve (Fixture.env Fixture.no_fault) (Fixture.signed "anonymous") Fixture.with_ada)
  = Fixture.with_ada.
Proof.
  apply (client_error_no_store_write (Fixture.env Fixture.no_fault)
           (Fixture.signed "anonymous") Fixture.with_ada _
           (response (Json_error "No customer email") 400)).
  - reflexivity.
  - reflexivity.
Defined.

(** ** The credit balance *)

Lemma num_or_Some_zero (x : Z) : num_or (Some x) 0 = x.
Proof. by rewrite num_or_zero. Qed.

Lemma paid_nonneg (ev : Event) :
  (forall a, session_amount_total (ev_object ev) = Some a -> 0 <= a) ->
  0 <= paid ev.
Proof.
  intros Hpos. unfold paid. rewrite num_or_zero.
  destruct (session_amount_total (ev_object ev)) as [a|]; simpl; [by apply Hpos | lia].
Qed.

Lemma purchased_credits (env : Env) (ev : Event) (r : UserRow) (t : nat) :
  credits (purchased_row env ev (Some r) t)
  = Some (num_or (credits r) 0 + paid ev / 10).
Proof. reflexivity. Qed.

Lemma credits_frame_grow (w w' : World) :
  (forall e, credits <$> users w' !! e = credits <$> users w !! e) ->
  forall e r, users w !! e = Some r ->
    exists r', users w' !! e = Some r' /\ num_or (credits r) 0 <= num_or (credits r') 0.
Proof.
  intros Hframe e r Hr. specialize (Hframe e). rewrite Hr in Hframe.
  destruct (users w' !! e) as [r'|]; [|done].
  injection Hframe as Hc. exists r'. rewrite Hc. split; [done | lia].
Qed.

(** C9. Under a store that reports [PGRST116] only for a missing row and a
    provider whose checkout amounts are not negative, no request ever lowers
    the credit balance of an existing account; and unless the request is an
    authenticated [checkout.session.completed] event, the credits column of
    every account is what it was and no account appears or disappears. *)
Theorem credits_only_grow_by_purchase
    (env : Env) (request : Request) (w w' : World) (out : Outcome Response) :
  faithful_store env ->
  (forall ev a,
      constructEvent env (body request) (signature request) = inl ev ->
      session_amount_total (ev_object ev) = Some a -> 0 <= a) ->
  serve env request w = (out, w') ->
  (forall e r, users w !! e = Some r ->
     exists r', users w' !! e = Some r'
                /\ num_or (credits r) 0 <= num_or (credits r') 0)
  /\ ((forall ev, constructEvent env (body request) (signature request) = inl ev ->
                  ev_type ev <> "checkout.session.completed") ->
      forall e, credits <$> users w' !! e = credits <$> users w !! e).
Proof.
  intros Hfaith Hpos Hrun.
  destruct (constructEvent env (body request) (signature request))
    as [ev|msg] eqn:Hev.
  2:{ assert (w' = w) as ->.
      { revert Hrun. unfold serve. rewrite Hev. destruct msg; by intros [= <- <-]. }
      split; [|done]. intros e r Hr. exists r. split; [done | lia]. }
  destruct (String.eqb_spec (ev_type ev) "checkout.session.completed") as [Hty|Hty].
  - split; [|intros Hno; by destruct (Hno ev)].
    destruct (truthy (session_email (ev_object ev))) as [e0|] eqn:Hemail.
    + apply truthy_inv in Hemail as [Hemail Hne].
      destruct (purchase_users env request ev e0 Hev Hty Hemail Hne w w' out Hfaith Hrun)
        as [-> | ->].
      * intros e r Hr. exists r. split; [done | lia].
      * intros e r Hr. destruct (decide (e = e0)) as [->|Hee].
        -- rewrite lookup_insert_eq, Hr. eexists; split; [done|].
           rewrite purchased_credits, num_or_Some_zero.
           pose proof (paid_nonneg ev (fun a => Hpos ev a eq_refl)) as Hp.
           assert (0 <= paid ev / 10) by (apply Z.div_pos; lia). lia.
        -- rewrite lookup_insert_ne by done. exists r. split; [done | lia].
    + assert (w' = w) as ->.
      { revert Hrun. unfold serve. rewrite Hev, Hty. simpl.
        unfold checkout_session_completed. rewrite Hemail. by intros [= <- <-]. }
      intros e r Hr. exists r. split; [done | lia].
  - assert (forall e, credits <$> users w' !! e = credits <$> users w !! e) as Hframe.
    { revert Hrun. unfold serve. rewrite Hev, (eqb_false_of_ne _ _ Hty).
      destruct (String.eqb (ev_type ev) "invoice.payment_succeeded");
        [apply invoice_credits_frame|].
      destruct (String.eqb (ev_type ev) "customer.subscription.deleted");
        [apply cancellation_credits_frame|].
      by intros [= <- <-]. }
    split; [by apply credits_frame_grow | done].
Qed.

Lemma credits_only_grow_by_purchase_witness :
  (forall e r, users Fixture.with_ada !! e = Some r ->
     exists r',
       users (snd (serve (Fixture.env Fixture.no_fault) (Fixture.signed "purchase")
                     Fixture.with_ada)) !! e = Some r'
       /\ num_or (credits r) 0 <= num_or (credits r') 0)
  /\ ((forall ev, constructEvent (Fixture.env Fixture.no_fault)
                    (body (Fixture.signed "purchase"))
                    (signature (Fixture.signed "purchase")) = inl ev ->
                  ev_type ev <> "checkout.session.completed") ->
      forall e,
        credits <$> users (snd (serve (Fixture.env Fixture.no_fault)
                                  (Fixture.signed "purchase") Fixture.with_ada)) !! e
        = credits <$> users Fixture.with_ada !! e).
Proof.
  apply (credits_only_grow_by_purchase (Fixture.env Fixture.no_fault)
           (Fixture.signed "purchase") Fixture.with_ada _
           (fst (serve (Fixture.env Fixture.no_fault) (Fixture.signed "purchase")
                   Fixture.with_ada))).
  - intros n. discriminate.
  - intros ev a [= <-] [= <-]. lia.
  - reflexivity.
Defined.

(** ** Subscription payments *)

(** X19.  For an [invoice.payment_succeeded] event with a customer email,
    when the provider resolves the subscription and its product, the store
    accepts the update and the insert, and the account exists: the answer is
    200; the account's tier is [premium] if the product's name contains
    [Premium] and [enterprise] otherwise; its subscription reference is the
    invoice's, its subscription is active and its last payment is stamped
    with the clock; its other columns are as before; and one record of kind
    [subscription_payment] and status [completed] is appended to the log. *)
Theorem subscription_payment_applied
    (env : Env) (request : Request) (ev : Event) (e : string)
    (sub : Subscription) (prod : Product) (w : World) (r : UserRow) :
  constructEvent env (body request) (signature request) = inl ev ->
  ev_type ev = "invoice.payment_succeeded" ->
  invoice_customer_email (ev_object ev) = Some e ->
  e <> "" ->
  subscriptions_retrieve env (invoice_subscription (ev_object ev)) = Some sub ->
  products_retrieve env
    ((fun item => product (price item)) <$> head (items_data sub)) = Some prod ->
  store_fault env (length (calls w)) = None ->
  store_fault env (S (length (calls w))) = None ->
  users w !! e = Some r ->
  exists w' r' t,
    serve env request w = (Ret (response Json_success 200), w')
    /\ users w' !! e = Some r'
    /\ subscription_tier r' =
         Some (if includes "Premium" (name prod) then "premium" else "enterprise")
    /\ subscription_id r' = invoice_subscription (ev_object ev)
    /\ subscription_active r' = Some true
    /\ last_payment r' = Some (now env (ticks w))
    /\ (credits r', last_purchase r', total_spent r', subscription_cancelled r')
       = (credits r, last_purchase r, total_spent r, subscription_cancelled r)
    /\ transactions w' = (transactions w ++ [t])%list
    /\ user_email t = e
    /\ tx_subscription_id t = invoice_subscription (ev_object ev)
    /\ type t = "subscription_payment"
    /\ status t = "completed".
Proof.
  intros Hev Hty Hemail Hne Hsub Hprod Hupd Hins Hrow.
  destruct (payment_applied env request ev e Hev Hty Hemail Hne w sub prod Hsub Hprod Hupd)
    as (w' & Hrun & Hu & Ht & _).
  rewrite Hins in Ht.
  exists w', (subscribed_row env ev prod (ticks w) r), (payment_record env ev e (S (ticks w))).
  split_and!; try done.
  rewrite Hu, lookup_alter, decide_True by done. by rewrite Hrow.
Qed.

Lemma subscription_payment_applied_witness :
  exists w' r' t,
    serve (Fixture.env Fixture.no_fault) (Fixture.signed "invoice") Fixture.with_ada
    = (Ret (response Json_success 200), w')
    /\ users w' !! Fixture.ada = Some r'
    /\ subscription_tier r' = Some "premium"
    /\ subscription_id r' = Some "sub_1"
    /\ subscription_active r' = Some true
    /\ last_payment r' = Some "2025-01-01T00:00:00.000Z"
    /\ (credits r', last_purchase r', total_spent r', subscription_cancelled r')
       = (Some 5, None, Some 20%Q, None)
    /\ transactions w' = [t]
    /\ user_email t = Fixture.ada
    /\ tx_subscription_id t = Some "sub_1"
    /\ type t = "subscription_payment"
    /\ status t = "completed".
Proof.
  apply (subscription_payment_applied (Fixture.env Fixture.no_fault)
           (Fixture.signed "invoice") Fixture.invoice_event Fixture.ada
           Fixture.sub_1 {| name := "JunctionSim Premium" |}
           Fixture.with_ada Fixture.ada_row).
  - reflexivity.
  - reflexivity.
  - reflexivity.
  - discriminate.
  - reflexivity.
  - reflexivity.
  - reflexivity.
  - reflexivity.
  - reflexivity.
Defined.

(** ** Purchases *)

Lemma paid_zero (ev : Event) :
  session_amount_total (ev_object ev) = None
  \/ session_amount_total (ev_object ev) = Some 0 ->
  paid ev = 0.
Proof. unfold paid. by intros [-> | ->]. Qed.

Lemma balance_purchased (env : Env) (ev : Event) (e : string) (w w' : World) (t : nat) :
  users w' = <[e := purchased_row env ev (users w !! e) t]> (users w) ->
  balance w' e = balance w e + paid ev / 10.
Proof.
  intros Hu. unfold balance at 1. rewrite Hu, lookup_insert_eq.
  change (num_or (Some (balance w e + paid ev / 10)) 0 = balance w e + paid ev / 10).
  apply num_or_Some_zero.
Qed.

(** C10. A [checkout.session.completed] event with a customer email whose
    [amount_total] is [null] or 0 is processed like any other purchase when
    the store accepts the three requests: the answer is 200, the account is
    upserted with its balance unchanged (0 credits granted), the
    last-purchase timestamp, a cumulative spend of 0 and the tier [free]
    written, and a record with amount 0, [credits_added] 0 and status
    [completed] is appended to the log. *)
Theorem zero_amount_purchase_processed
    (env : Env) (request : Request) (ev : Event) (e : string) (w : World) :
  constructEvent env (body request) (signature request) = inl ev ->
  ev_type ev = "checkout.session.completed" ->
  session_email (ev_object ev) = Some e ->
  e <> "" ->
  session_amount_total (ev_object ev) = None
  \/ session_amount_total (ev_object ev) = Some 0 ->
  store_fault env (length (calls w)) = None ->
  store_fault env (S (length (calls w))) = None ->
  store_fault env (S (S (length (calls w)))) = None ->
  exists w' r' q t,
    serve env request w = (Ret (response Json_success 200), w')
    /\ users w' !! e = Some r'
    /\ credits r' = Some (balance w e)
    /\ last_purchase r' = Some (now env (ticks w))
    /\ total_spent r' = Some q /\ (q == 0)%Q
    /\ subscription_tier r' = Some "free"
    /\ transactions w' = (transactions w ++ [t])%list
    /\ user_email t = e
    /\ (amount t == 0)%Q
    /\ credits_added t = Some 0
    /\ type t = "credit_purchase"
    /\ status t = "completed".
Proof.
  intros Hev Hty Hemail Hne Hzero Hsel Hups Hins.
  destruct (purchase_applied env request ev e Hev Hty Hemail Hne w Hsel Hups)
    as (w' & Hrun & Hu & Ht & _).
  rewrite Hins in Ht. apply paid_zero in Hzero.
  exists w', (purchased_row env ev (users w !! e) (ticks w)),
    (0 + inject_Z (paid ev) / 100)%Q, (purchase_record env ev e (S (ticks w))).
  split_and!; try done.
  - by rewrite Hu, lookup_insert_eq.
  - unfold purchased_row, balance; simpl. rewrite Hzero. f_equal. apply Z.add_0_r.
  - by rewrite Hzero.
  - simpl. by rewrite Hzero.
  - simpl. by rewrite Hzero.
Qed.

Lemma zero_amount_purchase_processed_witness :
  exists w' r' q t,
    serve (Fixture.env Fixture.no_fault) (Fixture.signed "free") Fixture.with_ada
    = (Ret (response Json_success 200), w')
    /\ users w' !! Fixture.ada = Some r'
    /\ credits r' = Some (balance Fixture.with_ada Fixture.ada)
    /\ last_purchase r' = Some "2025-01-01T00:00:00.000Z"
    /\ total_spent r' = Some q /\ (q == 0)%Q
    /\ subscription_tier r' = Some "free"
    /\ transactions w' = [t]
    /\ user_email t = Fixture.ada
    /\ (amount t == 0)%Q
    /\ credits_added t = Some 0
    /\ type t = "credit_purchase"
    /\ status t = "completed".
Proof.
  apply (zero_amount_purchase_processed (Fixture.env Fixture.no_fault)
           (Fixture.signed "free") Fixture.free_event Fixture.ada Fixture.with_ada).
  - reflexivity.
  - reflexivity.
  - reflexivity.
  - discriminate.
  - left. reflexivity.
  - reflexivity.
  - reflexivity.
  - reflexivity.
Defined.

(** C1, as the handler has it.  The handler never looks a session up in the
    transaction log: every processing of a purchase that is answered with
    200, the first and a replay alike, adds [floor(amount / 10)] credits.
    After the replay the balance is the original one plus twice the grant,
    and the replay leaves the balance unchanged exactly when the grant is
    0. *)
Theorem replay_credits_again
    (env : Env) (request : Request) (ev : Event) (e : string)
    (w w1 w2 : World) (r1 r2 : Response) :
  faithful_store env ->
  constructEvent env (body request) (signature request) = inl ev ->
  ev_type ev = "checkout.session.completed" ->
  session_email (ev_object ev) = Some e ->
  e <> "" ->
  serve env request w = (Ret r1, w1) ->
  resp_status r1 = 200%nat ->
  serve env request w1 = (Ret r2, w2) ->
  resp_status r2 = 200%nat ->
  balance w1 e = balance w e + paid ev / 10
  /\ balance w2 e = balance w e + 2 * (paid ev / 10)
  /\ (balance w2 e = balance w1 e <-> paid ev / 10 = 0).
Proof.
  intros Hfaith Hev Hty Hemail Hne Hrun1 Hok1 Hrun2 Hok2.
  destruct (purchase_200_inv env request ev e Hev Hty Hemail Hne w w1 r1 Hfaith Hrun1 Hok1)
    as [Hs1 Hu1].
  destruct (purchase_200_inv env request ev e Hev Hty Hemail Hne w1 w2 r2 Hfaith Hrun2 Hok2)
    as [Hs2 Hu2].
  destruct (purchase_applied env request ev e Hev Hty Hemail Hne w Hs1 Hu1)
    as (w1' & Hrun1' & Husers1 & _).
  destruct (purchase_applied env request ev e Hev Hty Hemail Hne w1 Hs2 Hu2)
    as (w2' & Hrun2' & Husers2 & _).
  rewrite Hrun1 in Hrun1'. injection Hrun1' as _ <-.
  rewrite Hrun2 in Hrun2'. injection Hrun2' as _ <-.
  apply balance_purchased in Husers1, Husers2. lia.
Qed.

Lemma replay_credits_again_witness :
  let env := Fixture.env Fixture.no_fault in
  let w1 := snd (serve env (Fixture.signed "purchase") Fixture.with_ada) in
  let w2 := snd (serve env (Fixture.signed "purchase") w1) in
  balance w1 Fixture.ada = balance Fixture.with_ada Fixture.ada + paid Fixture.purchase_event / 10
  /\ balance w2 Fixture.ada
     = balance Fixture.with_ada Fixture.ada + 2 * (paid Fixture.purchase_event / 10)
  /\ (balance w2 Fixture.ada = balance w1 Fixture.ada
      <-> paid Fixture.purchase_event / 10 = 0).
Proof.
  intros env w1 w2.
  apply (replay_credits_again env (Fixture.signed "purchase") Fixture.purchase_event
           Fixture.ada Fixture.with_ada w1 w2
           (response Json_success 200) (response Json_success 200)).
  - intros n. discriminate.
  - reflexivity.
  - reflexivity.
  - reflexivity.
  - discriminate.
  - reflexivity.
  - reflexivity.
  - reflexivity.
  - reflexivity.
Defined.

(** C1, as claimed, fails: [ada] has 5 credits and buys 1000 minor units;
    the first delivery is answered with 200 and leaves 105 credits, the
    replay of the same request is answered with 200 and leaves 205. *)
Lemma replay_double_credits :
  let env := Fixture.env Fixture.no_fault in
  let w1 := snd (serve env (Fixture.signed "purchase") Fixture.with_ada) in
  let w2 := snd (serve env (Fixture.signed "purchase") w1) in
  fst (serve env (Fixture.signed "purchase") Fixture.with_ada)
  = Ret (response Json_success 200)
  /\ fst (serve env (Fixture.signed "purchase") w1) = Ret (response Json_success 200)
  /\ users w1 !! Fixture.ada ≫= credits = Some 105
  /\ users w2 !! Fixture.ada ≫= credits = Some 205
  /\ balance w2 Fixture.ada <> balance w1 Fixture.ada.
Proof. vm_compute. split_and!; try reflexivity. discriminate. Qed.

(** ** Where the handler departs from the specification *)

(** C2, at a failing input.  [ada] has 5 credits and a cumulative spend of
    20 and buys 1000 minor units.  The grant is 100 and the balance 105, as
    claimed; but the lookup selects the [credits] column alone, so the spend
    read back is [undefined] and the cumulative spend is stored as 10, not
    as 20 + 10. *)
Lemma purchase_overwrites_spend :
  let w' := snd (serve (Fixture.env Fixture.no_fault) (Fixture.signed "purchase")
                   Fixture.with_ada) in
  fst (serve (Fixture.env Fixture.no_fault) (Fixture.signed "purchase") Fixture.with_ada)
  = Ret (response Json_success 200)
  /\ credits_added <$> transactions w' = [Some 100]
  /\ users w' !! Fixture.ada ≫= credits = Some 105
  /\ exists q, users w' !! Fixture.ada ≫= total_spent = Some q
               /\ (q == 10)%Q /\ ~ (q == 20 + 1000 / 100)%Q.
Proof.
  vm_compute. split_and!; try reflexivity.
  eexists. split_and!; [reflexivity | reflexivity | discriminate].
Qed.

(** C3, at a failing input.  The store accepts the lookup and the upsert of
    [ada]'s purchase and rejects the insert.  The handler does not look at
    the result of the insert: the account is credited, the answer is 200,
    and the transaction log is empty. *)
Lemma success_without_audit_record :
  let w' := snd (serve (Fixture.env Fixture.third_fails) (Fixture.signed "purchase")
                   Fixture.with_ada) in
  fst (serve (Fixture.env Fixture.third_fails) (Fixture.signed "purchase")
         Fixture.with_ada)
  = Ret (response Json_success 200)
  /\ users w' !! Fixture.ada ≫= credits = Some 105
  /\ transactions w' = [].
Proof. vm_compute. split_and!; reflexivity. Qed.

(** C4, at a failing input.  [ada] exists and is a [premium] subscriber;
    after her purchase her tier is [free], while her subscription is still
    active. *)
Lemma purchase_resets_tier :
  let w' := snd (serve (Fixture.env Fixture.no_fault) (Fixture.signed "purchase")
                   Fixture.with_ada) in
  users Fixture.with_ada !! Fixture.ada ≫= subscription_tier = Some "premium"
  /\ fst (serve (Fixture.env Fixture.no_fault) (Fixture.signed "purchase")
            Fixture.with_ada)
     = Ret (response Json_success 200)
  /\ users w' !! Fixture.ada ≫= subscription_tier = Some "free"
  /\ users w' !! Fixture.ada ≫= subscription_active = Some true.
Proof. vm_compute. split_and!; reflexivity. Qed.

(** C5, at a failing input.  No account exists; a subscription payment of
    [ada] is answered with 200 and logged as [completed], and still no
    account exists: the update matches no row, where the purchase branch
    upserts. *)
Lemma subscription_payment_creates_no_account :
  let w' := snd (serve (Fixture.env Fixture.no_fault) (Fixture.signed "invoice")
                   Fixture.empty_world) in
  fst (serve (Fixture.env Fixture.no_fault) (Fixture.signed "invoice")
         Fixture.empty_world)
  = Ret (response Json_success 200)
  /\ (type <$> transactions w', status <$> transactions w')
     = (["subscription_payment"], ["completed"])
  /\ users w' !! Fixture.ada = None
  /\ users w' = ∅.
Proof. vm_compute. split_and!; reflexivity. Qed.

(** C6, at a failing input.  No account exists for [ada]; her invoice
    carries her email and the provider resolves the subscription and its
    product, named [JunctionSim Premium].  The handler sends the update with
    the tier [premium], the subscription reference, the active flag and the
    last-payment stamp, answers 200 and logs the [subscription_payment]
    record as [completed]; but the update matches no row, so no account
    carries any of the four columns afterwards. *)
Lemma subscription_payment_sets_nothing_without_account :
  let w' := snd (serve (Fixture.env Fixture.no_fault) (Fixture.signed "invoice")
                   Fixture.empty_world) in
  Fixture.verify "invoice" (Some "t=1,v1=00") = inl Fixture.invoice_event
  /\ invoice_customer_email (ev_object Fixture.invoice_event) = Some Fixture.ada
  /\ (name <$> (subscriptions_retrieve (Fixture.env Fixture.no_fault) (Some "sub_1")
               ≫= fun sub =>
                    products_retrieve (Fixture.env Fixture.no_fault)
                      ((fun item => product (price item)) <$> head (items_data sub))))
     = Some "JunctionSim Premium"
  /\ fst (serve (Fixture.env Fixture.no_fault) (Fixture.signed "invoice")
            Fixture.empty_world)
     = Ret (response Json_success 200)
  /\ head (calls w')
     = Some (CallUpdate
               {| o_email := None;
                  o_credits := None;
                  o_subscription_tier := Some (Some "premium");
                  o_subscription_id := Some (Some "sub_1");
                  o_subscription_active := Some (Some true);
                  o_last_purchase := None;
                  o_last_payment := Some (Some "2025-01-01T00:00:00.000Z");
                  o_total_spent := None;
                  o_subscription_cancelled := None |}
               Fixture.ada)
  /\ (type <$> transactions w', status <$> transactions w')
     = (["subscription_payment"], ["completed"])
  /\ (users w' !! Fixture.ada ≫= subscription_tier,
      users w' !! Fixture.ada ≫= subscription_id,
      users w' !! Fixture.ada ≫= subscription_active,
      users w' !! Fixture.ada ≫= last_payment)
     = (None, None, None, None)
  /\ forall e r, users w' !! e = Some r -> subscription_tier r <> Some "premium".
Proof.
  intros w'. split_and!; try (vm_compute; reflexivity).
  intros e r. assert (users w' = ∅) as -> by (vm_compute; reflexivity).
  by rewrite lookup_empty.
Qed.

(** ** Every run, whatever the event *)

(** How a run may change the accounts: not at all, by writing one row, or by
    rewriting the row under one email if there is one. *)
Lemma serve_run (env : Env) (request : Request) (w : World) :
  exists r w',
    serve env request w = (Ret r, w')
    /\ (resp_status r = 200 \/ resp_status r = 400 \/ resp_status r = 500)%nat
    /\ (exists l, transactions w' = (transactions w ++ l)%list /\ (length l <= 1)%nat)
    /\ (resp_status r <> 200%nat ->
        users w' = users w /\ transactions w' = transactions w)
    /\ (users w' = users w
        \/ (exists e row, users w' = <[e := row]> (users w))
        \/ (exists e f, users w' = alter f e (users w))).
Proof.
  assert (forall l : list TransactionRow,
             exists l', l = (l ++ l')%list /\ (length l' <= 1)%nat) as Hnil.
  { intros l. exists []. rewrite app_nil_r. split; [done | simpl; lia]. }
  assert (forall (l : list TransactionRow) t,
             exists l', (l ++ [t])%list = (l ++ l')%list /\ (length l' <= 1)%nat) as Hone.
  { intros l t. exists [t]. split; [done | simpl; lia]. }
  unfold serve.
  destruct (constructEvent env (body request) (signature request)) as [ev|[msg|]];
    [| eexists _, _; split; [reflexivity|]; simpl; split_and!; eauto
     | eexists _, _; split; [reflexivity|]; simpl; split_and!; eauto].
  destruct (String.eqb (ev_type ev) "checkout.session.completed").
  { unfold checkout_session_completed.
    destruct (truthy _) as [e|];
      [| eexists _, _; split; [reflexivity|]; simpl; split_and!; eauto].
    unfold_monad.
    destruct (store_fault env (length (calls w))) as [c|]; simpl.
    - destruct (negb _); simpl;
        [eexists _, _; split; [reflexivity|]; simpl; split_and!; eauto|].
      destruct (store_fault env _); simpl;
        [eexists _, _; split; [reflexivity|]; simpl; split_and!; eauto|].
      destruct (store_fault env _); simpl;
        eexists _, _; (split; [reflexivity|]); simpl; split_and!; eauto; done.
    - destruct (users w !! e); simpl;
        (destruct (store_fault env _); simpl;
         [eexists _, _; split; [reflexivity|]; simpl; split_and!; eauto|]);
        destruct (store_fault env _); simpl;
        eexists _, _; (split; [reflexivity|]); simpl; split_and!; eauto; done. }
  destruct (String.eqb (ev_type ev) "invoice.payment_succeeded").
  { unfold invoice_payment_succeeded.
    destruct (truthy _) as [e|];
      [| eexists _, _; split; [reflexivity|]; simpl; split_and!; eauto].
    unfold_monad.
    destruct (subscriptions_retrieve _ _); simpl;
      [| eexists _, _; split; [reflexivity|]; simpl; split_and!; eauto].
    destruct (products_retrieve _ _); simpl;
      [| eexists _, _; split; [reflexivity|]; simpl; split_and!; eauto].
    destruct (store_fault env _); simpl;
      [eexists _, _; split; [reflexivity|]; simpl; split_and!; eauto|].
    destruct (store_fault env _); simpl;
      eexists _, _; (split; [reflexivity|]); simpl; split_and!; eauto; done. }
  destruct (String.eqb (ev_type ev) "customer.subscription.deleted").
  { unfold customer_subscription_deleted. unfold_monad.
    destruct (customers_retrieve _ _); simpl;
      [| eexists _, _; split; [reflexivity|]; simpl; split_and!; eauto].
    destruct (truthy _) as [e|]; simpl;
      [| eexists _, _; split; [reflexivity|]; simpl; split_and!; eauto].
    destruct (store_fault env _); simpl;
      eexists _, _; (split; [reflexivity|]); simpl; split_and!; eauto; done. }
  eexists _, _; split; [reflexivity|]; simpl; split_and!; eauto.
Qed.

(** X1.  Every request is answered: whatever is thrown inside a branch is caught
    there, and the status is 200, 400 or 500. *)
Theorem serve_always_responds (env : Env) (request : Request) (w : World) :
  exists r w',
    serve env request w = (Ret r, w')
    /\ (resp_status r = 200 \/ resp_status r = 400 \/ resp_status r = 500)%nat.
Proof.
  destruct (serve_run env request w) as (r & w' & Hrun & Hst & _). eauto.
Qed.

(** X2.  The transaction log is append-only: a run keeps every record of the log
    in place and adds at most one at the end. *)
Theorem transactions_append_only
    (env : Env) (request : Request) (w w' : World) (out : Outcome Response) :
  serve env request w = (out, w') ->
  exists l, transactions w' = (transactions w ++ l)%list /\ (length l <= 1)%nat.
Proof.
  intros Hrun. destruct (serve_run env request w) as (r & w2 & Hrun2 & _ & Hl & _).
  rewrite Hrun in Hrun2. by injection Hrun2 as _ ->.
Qed.

Lemma transactions_append_only_witness :
  exists l,
    transactions (snd (serve (Fixture.env Fixture.no_fault) (Fixture.signed "purchase")
                         Fixture.with_ada))
    = (transactions Fixture.with_ada ++ l)%list
    /\ (length l <= 1)%nat.
Proof.
  apply (transactions_append_only (Fixture.env Fixture.no_fault)
           (Fixture.signed "purchase") Fixture.with_ada _
           (fst (serve (Fixture.env Fixture.no_fault) (Fixture.signed "purchase")
                   Fixture.with_ada))).
  reflexivity.
Defined.

(** X3.  Only a run answered with 200 changes a table: after a 400 or a 500 the
    accounts and the transaction log are what they were, so the provider's
    retry of a failed delivery starts from the same ledger. *)
Theorem only_success_changes_tables
    (env : Env) (request : Request) (w w' : World) (r : Response) :
  serve env request w = (Ret r, w') ->
  resp_status r <> 200%nat ->
  users w' = users w /\ transactions w' = transactions w.
Proof.
  intros Hrun Hst.
  destruct (serve_run env request w) as (r2 & w2 & Hrun2 & _ & _ & Hkeep & _).
  rewrite Hrun in Hrun2. injection Hrun2 as <- <-. by apply Hkeep.
Qed.

Lemma only_success_changes_tables_witness :
  users (snd (serve (Fixture.env Scenario.first_fails) (Fixture.signed "invoice")
                Fixture.with_ada))
  = users Fixture.with_ada
  /\ transactions (snd (serve (Fixture.env Scenario.first_fails)
                          (Fixture.signed "invoice") Fixture.with_ada))
     = transactions Fixture.with_ada.
Proof.
  apply (only_success_changes_tables (Fixture.env Scenario.first_fails)
           (Fixture.signed "invoice") Fixture.with_ada _
           (response (Text "Failed to update subscription") 500)).
  - reflexivity.
  - discriminate.
Defined.

(** X4.  No request deletes an account: an email that has a row before a run has
    one after it. *)
Theorem accounts_never_deleted
    (env : Env) (request : Request) (w w' : World) (out : Outcome Response) (e : string) :
  serve env request w = (out, w') ->
  is_Some (users w !! e) ->
  is_Some (users w' !! e).
Proof.
  intros Hrun Hsome.
  destruct (serve_run env request w) as (r2 & w2 & Hrun2 & _ & _ & _ & Hu).
  rewrite Hrun in Hrun2. injection Hrun2 as _ <-.
  destruct Hu as [-> | [(e0 & row & ->) | (e0 & f & ->)]]; [done | |].
  - rewrite lookup_insert. case_decide; [by eexists | done].
  - rewrite lookup_alter. case_decide; [subst; by apply fmap_is_Some | done].
Qed.

Lemma accounts_never_deleted_witness :
  is_Some (users (snd (serve (Fixture.env Fixture.no_fault) (Fixture.signed "purchase")
                         Fixture.with_ada)) !! Fixture.ada).
Proof.
  apply (accounts_never_deleted (Fixture.env Fixture.no_fault)
           (Fixture.signed "purchase") Fixture.with_ada _
           (fst (serve (Fixture.env Fixture.no_fault) (Fixture.signed "purchase")
                   Fixture.with_ada))).
  - reflexivity.
  - eexists. reflexivity.
Defined.

(** X5.  A request touches one account at most: there is an email such that the
    rows under all other emails are what they were. *)
Theorem at_most_one_account_changes
    (env : Env) (request : Request) (w w' : World) (out : Outcome Response) :
  serve env request w = (out, w') ->
  exists e, forall e', e' <> e -> users w' !! e' = users w !! e'.
Proof.
  intros Hrun.
  destruct (serve_run env request w) as (r2 & w2 & Hrun2 & _ & _ & _ & Hu).
  rewrite Hrun in Hrun2. injection Hrun2 as _ <-.
  destruct Hu as [-> | [(e0 & row & ->) | (e0 & f & ->)]].
  - by exists "".
  - exists e0. intros e' Hne. by rewrite lookup_insert_ne.
  - exists e0. intros e' Hne. by rewrite lookup_alter_ne.
Qed.

Lemma at_most_one_account_changes_witness :
  exists e, forall e', e' <> e ->
    users (snd (serve (Fixture.env Fixture.no_fault) (Fixture.signed "purchase")
                  Fixture.with_ada)) !! e'
    = users Fixture.with_ada !! e'.
Proof.
  apply (at_most_one_account_changes (Fixture.env Fixture.no_fault)
           (Fixture.signed "purchase") Fixture.with_ada _
           (fst (serve (Fixture.env Fixture.no_fault) (Fixture.signed "purchase")
                   Fixture.with_ada))).
  reflexivity.
Defined.

(** ** Cancellations *)

Section Cancellation.

Variables (env : Env) (request : Request) (ev : Event).
Hypothesis Hev : constructEvent env (body request) (signature request) = inl ev.
Hypothesis Hty : ev_type ev = "customer.subscription.deleted".

Lemma serve_cancellation (w : World) :
  serve env request w = customer_subscription_deleted env ev w.
Proof using Hev Hty. unfold serve. by rewrite Hev, Hty. Qed.

End Cancellation.

(** X6.  A [customer.subscription.deleted] event whose customer the provider
    returns with [deleted: false] and an email, on an existing account and a
    store that accepts the update: the answer is 200, the subscription is
    inactive and the cancellation is stamped with the clock; the credits, the
    tier, the subscription reference, the spend and the other timestamps are
    as before; no transaction record is written; one request went to the
    store. *)
Theorem cancellation_applied
    (env : Env) (request : Request) (ev : Event) (cust : Customer) (e : string)
    (w : World) (r : UserRow) :
  constructEvent env (body request) (signature request) = inl ev ->
  ev_type ev = "customer.subscription.deleted" ->
  customers_retrieve env (subscription_customer (ev_object ev)) = Some cust ->
  deleted cust = Some false ->
  email cust = Some e ->
  e <> "" ->
  store_fault env (length (calls w)) = None ->
  users w !! e = Some r ->
  exists w' r',
    serve env request w = (Ret (response Json_success 200), w')
    /\ users w' !! e = Some r'
    /\ subscription_active r' = Some false
    /\ subscription_cancelled r' = Some (now env (ticks w))
    /\ (credits r', subscription_tier r', subscription_id r',
        last_purchase r', last_payment r', total_spent r')
       = (credits r, subscription_tier r, subscription_id r,
          last_purchase r, last_payment r, total_spent r)
    /\ transactions w' = transactions w
    /\ length (calls w') = S (length (calls w)).
Proof.
  intros Hev Hty Hcust Hdel Hemail Hne Hupd Hrow.
  rewrite (serve_cancellation env request ev Hev Hty).
  unfold customer_subscription_deleted. unfold_monad.
  rewrite Hcust. simpl. rewrite Hdel, Hemail, truthy_nonempty by done. simpl.
  rewrite Hupd. simpl.
  eexists _, _. split; [reflexivity|]. simpl.
  rewrite lookup_alter, decide_True, Hrow by done. simpl.
  split_and!; try reflexivity.
  rewrite length_app. simpl. lia.
Qed.

Lemma cancellation_applied_witness :
  exists w' r',
    serve (Scenario.env Fixture.no_fault) (Fixture.signed "cancel") Fixture.with_ada
    = (Ret (response Json_success 200), w')
    /\ users w' !! Fixture.ada = Some r'
    /\ subscription_active r' = Some false
    /\ subscription_cancelled r' = Some "2025-01-01T00:00:00.000Z"
    /\ (credits r', subscription_tier r', subscription_id r',
        last_purchase r', last_payment r', total_spent r')
       = (Some 5, Some "premium", Some "sub_1", None,
          Some "2024-12-01T00:00:00.000Z", Some 20%Q)
    /\ transactions w' = []
    /\ length (calls w') = 1%nat.
Proof.
  apply (cancellation_applied (Scenario.env Fixture.no_fault) (Fixture.signed "cancel")
           Scenario.cancel_event {| deleted := Some false; email := Some Fixture.ada |}
           Fixture.ada Fixture.with_ada Fixture.ada_row).
  - reflexivity.
  - reflexivity.
  - reflexivity.
  - reflexivity.
  - reflexivity.
  - discriminate.
  - reflexivity.
  - reflexivity.
Defined.

(** X7.  The cancellation branch takes the customer's email only when the
    customer object says [deleted: false].  For a customer that is deleted,
    or whose object has no [deleted] property, or that has no email, the
    answer is 400 and nothing is sent to the store, whatever email the
    object carries. *)
Theorem cancellation_needs_live_customer
    (env : Env) (request : Request) (ev : Event) (cust : Customer) (w : World) :
  constructEvent env (body request) (signature request) = inl ev ->
  ev_type ev = "customer.subscription.deleted" ->
  customers_retrieve env (subscription_customer (ev_object ev)) = Some cust ->
  deleted cust <> Some false \/ truthy (email cust) = None ->
  serve env request w
  = (Ret (response (Json_error "Could not find customer email") 400), w).
Proof.
  intros Hev Hty Hcust Hdead.
  rewrite (serve_cancellation env request ev Hev Hty).
  unfold customer_subscription_deleted. unfold_monad.
  rewrite Hcust. simpl.
  destruct Hdead as [Hdel | Hmail].
  - by destruct (deleted cust) as [[]|].
  - destruct (deleted cust) as [[]|]; try done. by rewrite Hmail.
Qed.

Lemma cancellation_needs_live_customer_witness :
  serve (Scenario.env Fixture.no_fault) (Fixture.signed "cancel_plain") Fixture.with_ada
  = (Ret (response (Json_error "Could not find customer email") 400), Fixture.with_ada).
Proof.
  apply (cancellation_needs_live_customer (Scenario.env Fixture.no_fault)
           (Fixture.signed "cancel_plain") Scenario.cancel_plain_event
           {| deleted := None; email := Some Fixture.ada |} Fixture.with_ada).
  - reflexivity.
  - reflexivity.
  - reflexivity.
  - left. discriminate.
Defined.

(** X8.  A cancellation never writes to the transaction log, whatever the
    provider and the store answer. *)
Theorem cancellation_logs_nothing
    (env : Env) (request : Request) (ev : Event) (w w' : World) (out : Outcome Response) :
  constructEvent env (body request) (signature request) = inl ev ->
  ev_type ev = "customer.subscription.deleted" ->
  serve env request w = (out, w') ->
  transactions w' = transactions w.
Proof.
  intros Hev Hty. rewrite (serve_cancellation env request ev Hev Hty).
  unfold customer_subscription_deleted. unfold_monad.
  destruct (customers_retrieve _ _); simpl; [|by intros [= <- <-]].
  destruct (truthy _); simpl; [|by intros [= <- <-]].
  destruct (store_fault env _); simpl; by intros [= <- <-].
Qed.

Lemma cancellation_logs_nothing_witness :
  transactions (snd (serve (Scenario.env Fixture.no_fault) (Fixture.signed "cancel")
                       Fixture.with_ada))
  = transactions Fixture.with_ada.
Proof.
  apply (cancellation_logs_nothing (Scenario.env Fixture.no_fault)
           (Fixture.signed "cancel") Scenario.cancel_event Fixture.with_ada _
           (fst (serve (Scenario.env Fixture.no_fault) (Fixture.signed "cancel")
                   Fixture.with_ada))).
  - reflexivity.
  - reflexivity.
  - reflexivity.
Defined.

(** X9.  When the customer lookup throws, or the store rejects the update, a
    cancellation is answered with 500 and both tables are what they were. *)
Theorem cancellation_server_error
    (env : Env) (request : Request) (ev : Event) (w : World) :
  constructEvent env (body request) (signature request) = inl ev ->
  ev_type ev = "customer.subscription.deleted" ->
  customers_retrieve env (subscription_customer (ev_object ev)) = None
  \/ (exists cust e c,
        customers_retrieve env (subscription_customer (ev_object ev)) = Some cust
        /\ deleted cust = Some false
        /\ truthy (email cust) = Some e
        /\ store_fault env (length (calls w)) = Some c) ->
  exists w',
    serve env request w = (Ret (response (Text "Failed to cancel subscription") 500), w')
    /\ users w' = users w
    /\ transactions w' = transactions w.
Proof.
  intros Hev Hty Hfail.
  rewrite (serve_cancellation env request ev Hev Hty).
  unfold customer_subscription_deleted. unfold_monad.
  destruct Hfail as [Hcust | (cust & e & c & Hcust & Hdel & Hmail & Hupd)];
    rewrite Hcust; simpl.
  - by eexists.
  - rewrite Hdel, Hmail. simpl. rewrite Hupd. simpl. by eexists.
Qed.

Lemma cancellation_server_error_witness :
  exists w',
    serve (Scenario.env Fixture.no_fault) (Fixture.signed "cancel_unknown")
      Fixture.with_ada
    = (Ret (response (Text "Failed to cancel subscription") 500), w')
    /\ users w' = users Fixture.with_ada
    /\ transactions w' = transactions Fixture.with_ada.
Proof.
  apply (cancellation_server_error (Scenario.env Fixture.no_fault)
           (Fixture.signed "cancel_unknown") Scenario.cancel_unknown_event
           Fixture.with_ada).
  - reflexivity.
  - reflexivity.
  - left. reflexivity.
Defined.

(** ** More on purchases *)

(** X10.  A purchase by an existing account, on a store that accepts the three
    requests: the answer is 200; the balance grows by [floor(amount / 10)];
    the tier is written as [free], the last purchase is stamped with the
    clock and the cumulative spend is stored as [amount / 100], whatever was
    stored before; the subscription reference, the active flag and the
    other timestamps are as before; and the record appended to the log
    carries the session identifier, the amount in currency units and the
    grant. *)
Theorem purchase_on_existing_account
    (env : Env) (request : Request) (ev : Event) (e : string) (w : World) (r : UserRow) :
  constructEvent env (body request) (signature request) = inl ev ->
  ev_type ev = "checkout.session.completed" ->
  session_email (ev_object ev) = Some e ->
  e <> "" ->
  store_fault env (length (calls w)) = None ->
  store_fault env (S (length (calls w))) = None ->
  store_fault env (S (S (length (calls w)))) = None ->
  users w !! e = Some r ->
  exists w' r' q t,
    serve env request w = (Ret (response Json_success 200), w')
    /\ users w' !! e = Some r'
    /\ credits r' = Some (num_or (credits r) 0 + paid ev / 10)
    /\ subscription_tier r' = Some "free"
    /\ last_purchase r' = Some (now env (ticks w))
    /\ total_spent r' = Some q /\ (q == inject_Z (paid ev) / 100)%Q
    /\ (subscription_id r', subscription_active r', last_payment r',
        subscription_cancelled r')
       = (subscription_id r, subscription_active r, last_payment r,
          subscription_cancelled r)
    /\ transactions w' = (transactions w ++ [t])%list
    /\ user_email t = e
    /\ session_id t = session_id_of (ev_object ev)
    /\ (amount t == inject_Z (paid ev) / 100)%Q
    /\ credits_added t = Some (paid ev / 10)
    /\ type t = "credit_purchase"
    /\ status t = "completed".
Proof.
  intros Hev Hty Hemail Hne Hsel Hups Hins Hrow.
  destruct (purchase_applied env request ev e Hev Hty Hemail Hne w Hsel Hups)
    as (w' & Hrun & Hu & Ht & _).
  rewrite Hins in Ht. rewrite Hrow in Hu.
  exists w', (purchased_row env ev (Some r) (ticks w)),
    (0 + inject_Z (paid ev) / 100)%Q, (purchase_record env ev e (S (ticks w))).
  split_and!; try done.
  - by rewrite Hu, lookup_insert_eq.
  - apply Qplus_0_l.
Qed.

Lemma purchase_on_existing_account_witness :
  exists w' r' q t,
    serve (Fixture.env Fixture.no_fault) (Fixture.signed "purchase") Fixture.with_ada
    = (Ret (response Json_success 200), w')
    /\ users w' !! Fixture.ada = Some r'
    /\ credits r' = Some (num_or (Some 5) 0 + paid Fixture.purchase_event / 10)
    /\ subscription_tier r' = Some "free"
    /\ last_purchase r' = Some "2025-01-01T00:00:00.000Z"
    /\ total_spent r' = Some q /\ (q == inject_Z (paid Fixture.purchase_event) / 100)%Q
    /\ (subscription_id r', subscription_active r', last_payment r',
        subscription_cancelled r')
       = (Some "sub_1", Some true, Some "2024-12-01T00:00:00.000Z", None)
    /\ transactions w' = [t]
    /\ user_email t = Fixture.ada
    /\ session_id t = Some "cs_test_1"
    /\ (amount t == inject_Z (paid Fixture.purchase_event) / 100)%Q
    /\ credits_added t = Some (paid Fixture.purchase_event / 10)
    /\ type t = "credit_purchase"
    /\ status t = "completed".
Proof.
  apply (purchase_on_existing_account (Fixture.env Fixture.no_fault)
           (Fixture.signed "purchase") Fixture.purchase_event Fixture.ada
           Fixture.with_ada Fixture.ada_row).
  - reflexivity.
  - reflexivity.
  - reflexivity.
  - discriminate.
  - reflexivity.
  - reflexivity.
  - reflexivity.
  - reflexivity.
Defined.

(** X11.  A purchase by an email that has no account creates the account when the
    store accepts the lookup and the upsert.  The new balance is the grant
    alone: the 5 credits that the schema gives a row by default are
    overwritten by the payload.  The columns that the payload does not carry
    take the schema defaults. *)
Theorem purchase_creates_account
    (env : Env) (request : Request) (ev : Event) (e : string) (w : World) :
  constructEvent env (body request) (signature request) = inl ev ->
  ev_type ev = "checkout.session.completed" ->
  session_email (ev_object ev) = Some e ->
  e <> "" ->
  store_fault env (length (calls w)) = None ->
  store_fault env (S (length (calls w))) = None ->
  users w !! e = None ->
  exists w' r' q,
    serve env request w = (Ret (response Json_success 200), w')
    /\ users w' !! e = Some r'
    /\ credits r' = Some (paid ev / 10)
    /\ subscription_tier r' = Some "free"
    /\ last_purchase r' = Some (now env (ticks w))
    /\ total_spent r' = Some q /\ (q == inject_Z (paid ev) / 100)%Q
    /\ (subscription_id r', subscription_active r', last_payment r',
        subscription_cancelled r')
       = (None, Some false, None, None).
Proof.
  intros Hev Hty Hemail Hne Hsel Hups Hrow.
  destruct (purchase_applied env request ev e Hev Hty Hemail Hne w Hsel Hups)
    as (w' & Hrun & Hu & _).
  rewrite Hrow in Hu.
  exists w', (purchased_row env ev None (ticks w)), (0 + inject_Z (paid ev) / 100)%Q.
  split_and!; try done.
  - by rewrite Hu, lookup_insert_eq.
  - apply Qplus_0_l.
Qed.

Lemma purchase_creates_account_witness :
  exists w' r' q,
    serve (Fixture.env Fixture.no_fault) (Fixture.signed "purchase") Fixture.empty_world
    = (Ret (response Json_success 200), w')
    /\ users w' !! Fixture.ada = Some r'
    /\ credits r' = Some (paid Fixture.purchase_event / 10)
    /\ subscription_tier r' = Some "free"
    /\ last_purchase r' = Some "2025-01-01T00:00:00.000Z"
    /\ total_spent r' = Some q /\ (q == inject_Z (paid Fixture.purchase_event) / 100)%Q
    /\ (subscription_id r', subscription_active r', last_payment r',
        subscription_cancelled r')
       = (None, Some false, None, None).
Proof.
  apply (purchase_creates_account (Fixture.env Fixture.no_fault)
           (Fixture.signed "purchase") Fixture.purchase_event Fixture.ada
           Fixture.empty_world).
  - reflexivity.
  - reflexivity.
  - reflexivity.
  - discriminate.
  - reflexivity.
  - reflexivity.
  - reflexivity.
Defined.

(** X12.  When the store rejects the lookup of a purchase with a code other than
    [PGRST116], or accepts the lookup and rejects the upsert, the answer is
    500 and both tables are what they were: nothing is credited and nothing
    is logged. *)
Theorem purchase_server_error
    (env : Env) (request : Request) (ev : Event) (e : string) (w : World) (c : string) :
  constructEvent env (body request) (signature request) = inl ev ->
  ev_type ev = "checkout.session.completed" ->
  session_email (ev_object ev) = Some e ->
  e <> "" ->
  (store_fault env (length (calls w)) = Some c /\ c <> "PGRST116")
  \/ (store_fault env (length (calls w)) = None
      /\ store_fault env (S (length (calls w))) = Some c) ->
  exists w',
    serve env request w = (Ret (response (Text "Failed to update user credits") 500), w')
    /\ users w' = users w
    /\ transactions w' = transactions w.
Proof.
  intros Hev Hty Hemail Hne Hfail.
  rewrite (serve_purchase env request ev Hev Hty).
  unfold checkout_session_completed. rewrite Hemail, truthy_nonempty by done.
  unfold_monad.
  destruct Hfail as [[Hsel Hc] | [Hsel Hups]]; rewrite Hsel; simpl.
  - rewrite eqb_false_of_ne by done. simpl. by eexists.
  - destruct (users w !! e); simpl;
      rewrite !length_app; simpl; rewrite Nat.add_1_r, Hups; simpl; by eexists.
Qed.

Lemma purchase_server_error_witness :
  exists w',
    serve (Fixture.env Scenario.first_fails) (Fixture.signed "purchase") Fixture.with_ada
    = (Ret (response (Text "Failed to update user credits") 500), w')
    /\ users w' = users Fixture.with_ada
    /\ transactions w' = transactions Fixture.with_ada.
Proof.
  apply (purchase_server_error (Fixture.env Scenario.first_fails)
           (Fixture.signed "purchase") Fixture.purchase_event Fixture.ada
           Fixture.with_ada "57014").
  - reflexivity.
  - reflexivity.
  - reflexivity.
  - discriminate.
  - left. split; [reflexivity | discriminate].
Defined.

(** X13.  A purchase is answered with 400 exactly when the session carries no
    customer email: [customer_details] is missing, or its email is missing
    or empty. *)
Theorem purchase_rejected_iff_no_email
    (env : Env) (request : Request) (ev : Event) (w w' : World) (r : Response) :
  constructEvent env (body request) (signature request) = inl ev ->
  ev_type ev = "checkout.session.completed" ->
  serve env request w = (Ret r, w') ->
  resp_status r = 400%nat <-> truthy (session_email (ev_object ev)) = None.
Proof.
  intros Hev Hty. rewrite (serve_purchase env request ev Hev Hty).
  unfold checkout_session_completed.
  destruct (truthy _) as [e|]; [|by intros [= <- <-]].
  unfold_monad.
  destruct (store_fault env (length (calls w))) as [c|]; simpl.
  - destruct (negb _); simpl; [by intros [= <- <-]|].
    destruct (store_fault env _); simpl; [by intros [= <- <-]|].
    destruct (store_fault env _); simpl; by intros [= <- <-].
  - destruct (users w !! e); simpl;
      (destruct (store_fault env _); simpl; [by intros [= <- <-]|]);
      destruct (store_fault env _); simpl; by intros [= <- <-].
Qed.

Lemma purchase_rejected_iff_no_email_witness :
  resp_status (response (Json_error "No customer email") 400) = 400%nat
  <-> truthy (session_email (ev_object Fixture.anonymous_event)) = None.
Proof.
  apply (purchase_rejected_iff_no_email (Fixture.env Fixture.no_fault)
           (Fixture.signed "anonymous") Fixture.anonymous_event
           Fixture.with_ada Fixture.with_ada).
  - reflexivity.
  - reflexivity.
  - reflexivity.
Defined.

(** X14.  Two different purchases by the same account, both answered with 200,
    add up: the balance after both is the balance before plus the two
    grants, in whichever order they arrive.  The two grants together never
    exceed the grant of one purchase of the total amount. *)
Theorem purchases_accumulate
    (env : Env) (request1 request2 : Request) (ev1 ev2 : Event) (e : string)
    (w w1 w2 v1 v2 : World) (r1 r2 s1 s2 : Response) :
  faithful_store env ->
  constructEvent env (body request1) (signature request1) = inl ev1 ->
  constructEvent env (body request2) (signature request2) = inl ev2 ->
  ev_type ev1 = "checkout.session.completed" ->
  ev_type ev2 = "checkout.session.completed" ->
  session_email (ev_object ev1) = Some e ->
  session_email (ev_object ev2) = Some e ->
  e <> "" ->
  serve env request1 w = (Ret r1, w1) -> resp_status r1 = 200%nat ->
  serve env request2 w1 = (Ret r2, w2) -> resp_status r2 = 200%nat ->
  serve env request2 w = (Ret s1, v1) -> resp_status s1 = 200%nat ->
  serve env request1 v1 = (Ret s2, v2) -> resp_status s2 = 200%nat ->
  balance w2 e = balance w e + paid ev1 / 10 + paid ev2 / 10
  /\ balance v2 e = balance w2 e
  /\ paid ev1 / 10 + paid ev2 / 10 <= (paid ev1 + paid ev2) / 10.
Proof.
  intros Hfaith Hev1 Hev2 Hty1 Hty2 Hem1 Hem2 Hne Ha Ha' Hb Hb' Hc Hc' Hd Hd'.
  assert (forall request ev u u' r,
             constructEvent env (body request) (signature request) = inl ev ->
             ev_type ev = "checkout.session.completed" ->
             session_email (ev_object ev) = Some e ->
             serve env request u = (Ret r, u') -> resp_status r = 200%nat ->
             balance u' e = balance u e + paid ev / 10) as Hstep.
  { intros request ev u u' r Hev Hty Hem Hrun Hok.
    destruct (purchase_200_inv env request ev e Hev Hty Hem Hne u u' r Hfaith Hrun Hok)
      as [Hs Hu].
    destruct (purchase_applied env request ev e Hev Hty Hem Hne u Hs Hu)
      as (u2 & Hrun2 & Husers & _).
    rewrite Hrun in Hrun2. injection Hrun2 as _ <-.
    by apply balance_purchased in Husers. }
  pose proof (Hstep _ _ _ _ _ Hev1 Hty1 Hem1 Ha Ha') as E1.
  pose proof (Hstep _ _ _ _ _ Hev2 Hty2 Hem2 Hb Hb') as E2.
  pose proof (Hstep _ _ _ _ _ Hev2 Hty2 Hem2 Hc Hc') as E3.
  pose proof (Hstep _ _ _ _ _ Hev1 Hty1 Hem1 Hd Hd') as E4.
  split_and!; [lia | lia |].
  pose proof (Z.div_mod (paid ev1) 10). pose proof (Z.div_mod (paid ev2) 10).
  pose proof (Z.mod_pos_bound (paid ev1) 10). pose proof (Z.mod_pos_bound (paid ev2) 10).
  apply Z.div_le_lower_bound; lia.
Qed.

Lemma purchases_accumulate_witness :
  let env := Scenario.env Fixture.no_fault in
  let w1 := snd (serve env (Fixture.signed "purchase") Fixture.with_ada) in
  let w2 := snd (serve env (Fixture.signed "small_purchase") w1) in
  let v1 := snd (serve env (Fixture.signed "small_purchase") Fixture.with_ada) in
  let v2 := snd (serve env (Fixture.signed "purchase") v1) in
  balance w2 Fixture.ada
  = balance Fixture.with_ada Fixture.ada
    + paid Fixture.purchase_event / 10 + paid Scenario.small_purchase_event / 10
  /\ balance v2 Fixture.ada = balance w2 Fixture.ada
  /\ paid Fixture.purchase_event / 10 + paid Scenario.small_purchase_event / 10
     <= (paid Fixture.purchase_event + paid Scenario.small_purchase_event) / 10.
Proof.
  intros env w1 w2 v1 v2.
  apply (purchases_accumulate env (Fixture.signed "purchase")
           (Fixture.signed "small_purchase") Fixture.purchase_event
           Scenario.small_purchase_event Fixture.ada Fixture.with_ada w1 w2 v1 v2
           (response Json_success 200) (response Json_success 200)
           (response Json_success 200) (response Json_success 200)).
  - intros n. discriminate.
  - reflexivity.
  - reflexivity.
  - reflexivity.
  - reflexivity.
  - reflexivity.
  - reflexivity.
  - discriminate.
  - reflexivity.
  - reflexivity.
  - reflexivity.
  - reflexivity.
  - reflexivity.
  - reflexivity.
  - reflexivity.
  - reflexivity.
Defined.

(** ** More on subscription payments *)

(** X15.  When a provider lookup of a subscription payment throws (the
    subscription, or the product of its first item; a subscription without
    items has no product to look up), or the store rejects the update, the
    answer is 500, both tables are what they were and no record is
    logged. *)
Theorem payment_server_error
    (env : Env) (request : Request) (ev : Event) (e : string) (w : World) :
  constructEvent env (body request) (signature request) = inl ev ->
  ev_type ev = "invoice.payment_succeeded" ->
  invoice_customer_email (ev_object ev) = Some e ->
  e <> "" ->
  subscriptions_retrieve env (invoice_subscription (ev_object ev)) = None
  \/ (exists sub,
        subscriptions_retrieve env (invoice_subscription (ev_object ev)) = Some sub
        /\ (products_retrieve env
              ((fun item => product (price item)) <$> head (items_data sub)) = None
            \/ exists c, store_fault env (length (calls w)) = Some c)) ->
  exists w',
    serve env request w = (Ret (response (Text "Failed to update subscription") 500), w')
    /\ users w' = users w
    /\ transactions w' = transactions w.
Proof.
  intros Hev Hty Hemail Hne Hfail.
  rewrite (serve_payment env request ev Hev Hty).
  unfold invoice_payment_succeeded. rewrite Hemail, truthy_nonempty by done.
  unfold_monad.
  destruct Hfail as [Hsub | (sub & Hsub & [Hprod | [c Hupd]])]; rewrite Hsub; simpl.
  - by eexists.
  - rewrite Hprod. simpl. by eexists.
  - destruct (products_retrieve _ _); simpl; [|by eexists].
    rewrite Hupd. simpl. by eexists.
Qed.

Lemma payment_server_error_witness :
  exists w',
    serve (Scenario.env Fixture.no_fault) (Fixture.signed "stale_invoice")
      Fixture.with_ada
    = (Ret (response (Text "Failed to update subscription") 500), w')
    /\ users w' = users Fixture.with_ada
    /\ transactions w' = transactions Fixture.with_ada.
Proof.
  apply (payment_server_error (Scenario.env Fixture.no_fault)
           (Fixture.signed "stale_invoice") Scenario.stale_invoice_event
           Fixture.ada Fixture.with_ada).
  - reflexivity.
  - reflexivity.
  - reflexivity.
  - discriminate.
  - left. reflexivity.
Defined.

(** X16.  A subscription payment is answered with 400 exactly when the invoice
    carries no customer email (missing or empty). *)
Theorem payment_rejected_iff_no_email
    (env : Env) (request : Request) (ev : Event) (w w' : World) (r : Response) :
  constructEvent env (body request) (signature request) = inl ev ->
  ev_type ev = "invoice.payment_succeeded" ->
  serve env request w = (Ret r, w') ->
  resp_status r = 400%nat <-> truthy (invoice_customer_email (ev_object ev)) = None.
Proof.
  intros Hev Hty. rewrite (serve_payment env request ev Hev Hty).
  unfold invoice_payment_succeeded.
  destruct (truthy _) as [e|]; [|by intros [= <- <-]].
  unfold_monad.
  destruct (subscriptions_retrieve _ _); simpl; [|by intros [= <- <-]].
  destruct (products_retrieve _ _); simpl; [|by intros [= <- <-]].
  destruct (store_fault env _); simpl; [by intros [= <- <-]|].
  destruct (store_fault env _); simpl; by intros [= <- <-].
Qed.

Lemma payment_rejected_iff_no_email_witness :
  resp_status (response (Json_error "No customer email") 400) = 400%nat
  <-> truthy (invoice_customer_email (ev_object Scenario.anonymous_invoice_event)) = None.
Proof.
  apply (payment_rejected_iff_no_email (Scenario.env Fixture.no_fault)
           (Fixture.signed "anonymous_invoice") Scenario.anonymous_invoice_event
           Fixture.with_ada Fixture.with_ada).
  - reflexivity.
  - reflexivity.
  - reflexivity.
Defined.

(** X17.  The tier that an applied subscription payment writes is [premium]
    exactly when [Premium], with this capitalisation, occurs somewhere in
    the product's name, and [enterprise] otherwise; it is never [free]. *)
Theorem payment_tier_by_substring
    (env : Env) (request : Request) (ev : Event) (e : string)
    (sub : Subscription) (prod : Product) (w : World) (r : UserRow) :
  constructEvent env (body request) (signature request) = inl ev ->
  ev_type ev = "invoice.payment_succeeded" ->
  invoice_customer_email (ev_object ev) = Some e ->
  e <> "" ->
  subscriptions_retrieve env (invoice_subscription (ev_object ev)) = Some sub ->
  products_retrieve env
    ((fun item => product (price item)) <$> head (items_data sub)) = Some prod ->
  store_fault env (length (calls w)) = None ->
  users w !! e = Some r ->
  exists w' r',
    serve env request w = (Ret (response Json_success 200), w')
    /\ users w' !! e = Some r'
    /\ (subscription_tier r' = Some "premium"
        <-> exists pre post, name prod = pre +:+ "Premium" +:+ post)
    /\ (subscription_tier r' = Some "enterprise"
        <-> ~ exists pre post, name prod = pre +:+ "Premium" +:+ post).
Proof.
  intros Hev Hty Hemail Hne Hsub Hprod Hupd Hrow.
  destruct (payment_applied env request ev e Hev Hty Hemail Hne w sub prod Hsub Hprod Hupd)
    as (w' & Hrun & Hu & _).
  exists w', (subscribed_row env ev prod (ticks w) r).
  split_and!; [done | by rewrite Hu, lookup_alter, decide_True, Hrow by done | |];
    simpl; unfold classify; rewrite <- includes_spec;
    destruct (includes "Premium" (name prod)); split; (done || congruence).
Qed.

Lemma payment_tier_by_substring_witness :
  exists w' r',
    serve (Fixture.env Fixture.no_fault) (Fixture.signed "invoice") Fixture.with_ada
    = (Ret (response Json_success 200), w')
    /\ users w' !! Fixture.ada = Some r'
    /\ (subscription_tier r' = Some "premium"
        <-> exists pre post, "JunctionSim Premium" = pre +:+ "Premium" +:+ post)
    /\ (subscription_tier r' = Some "enterprise"
        <-> ~ exists pre post, "JunctionSim Premium" = pre +:+ "Premium" +:+ post).
Proof.
  apply (payment_tier_by_substring (Fixture.env Fixture.no_fault)
           (Fixture.signed "invoice") Fixture.invoice_event Fixture.ada
           Fixture.sub_1 {| name := "JunctionSim Premium" |}
           Fixture.with_ada Fixture.ada_row).
  - reflexivity.
  - reflexivity.
  - reflexivity.
  - discriminate.
  - reflexivity.
  - reflexivity.
  - reflexivity.
  - reflexivity.
Defined.


